(** * Rpom_Exoproteome: the FragPipe post-processing scripts

    A shallow embedding of the scripts under [scripts/fragpipe]:
    - [format_raw.py]      (module [FormatRaw]): the reformatter,
    - [annotate.py]        (module [Annotate]): the annotator,
    - [statistics_multipletests.py] (module [Statistics]): the statistics stage,
    - [significant_list.py] (module [SignificantList]): the significance extractor,
    - [volcano_plot.py]    (module [VolcanoPlot]): the points of the plot.

    Text is modelled as [string], one code per character: the text whose
    code points lie below 256 (ASCII and Latin-1).  Python floats are the
    kernel's binary64 [float], a Python [dict] is a [gmap], exceptions are
    values of [exn] carried by explicit result types, and the routines of
    numpy, scipy, pandas and statsmodels that the scripts only call are the
    fields of the class [Statistics.Libraries]. *)

From Stdlib Require Import String Ascii List Floats Bool Arith PeanoNat NArith ZArith Lia.
From Stdlib Require Import Sorting.Sorted Sorting.Permutation.
From stdpp Require Import gmap strings.
Import ListNotations.
#[local] Set Warnings "-inexact-float".
#[local] Open Scope string_scope.
#[local] Arguments String.append !s1 s2 : simpl nomatch.

(* ===================================================================== *)
(** ** Python built-ins used by the scripts *)
(* ===================================================================== *)

Module Py.

(** The exceptions the modelled code can raise. *)
Inductive exn : Type :=
| IndexError
| KeyError (key : string)
| ValueError
| TypeError.

(** A value held in a pandas object column: a [str], or a float (the
    missing-value marker NaN, or a number such as the 0 of [fillna(0)]). *)
Inductive cell : Type :=
| CStr (s : string)
| CNum (x : float).

Definition TAB : ascii := "009"%char.
Definition LF : ascii := "010"%char.

(** [str.isspace] on the code points below 256: TAB, LF, VT, FF, CR, the
    four separators FS..US, the space, NEL (U+0085) and the no-break space
    (U+00A0). *)
Definition isspace (c : ascii) : bool :=
  let n := nat_of_ascii c in
  (((9 <=? n) && (n <=? 13)) || ((28 <=? n) && (n <=? 32))
   || (n =? 133) || (n =? 160))%nat.

(** [s.lstrip()], [s.rstrip()] and [s.strip()]. *)
Fixpoint lstrip (s : string) : string :=
  match s with
  | EmptyString => EmptyString
  | String c r => if isspace c then lstrip r else s
  end.

Fixpoint rstrip (s : string) : string :=
  match s with
  | EmptyString => EmptyString
  | String c r =>
      match rstrip r with
      | EmptyString => if isspace c then EmptyString else String c EmptyString
      | r' => String c r'
      end
  end.

Definition strip (s : string) : string := rstrip (lstrip s).

(** [s.split(sep)] for a one-character separator: never the empty list. *)
Fixpoint split (sep : ascii) (s : string) : list string :=
  match s with
  | EmptyString => [EmptyString]
  | String c r =>
      if Ascii.eqb c sep then EmptyString :: split sep r
      else match split sep r with
           | f :: fs => String c f :: fs
           | [] => [String c EmptyString]
           end
  end.

(** [s.split(sep, 1)]: cut at the first separator only. *)
Fixpoint split1 (sep : ascii) (s : string) : list string :=
  match s with
  | EmptyString => [EmptyString]
  | String c r =>
      if Ascii.eqb c sep then [EmptyString; r]
      else match split1 sep r with
           | f :: fs => String c f :: fs
           | [] => [String c EmptyString]
           end
  end.

(** [sep.join(l)]. *)
Fixpoint join (sep : string) (l : list string) : string :=
  match l with
  | [] => EmptyString
  | [x] => x
  | x :: rest => x ++ sep ++ join sep rest
  end.

(** [sub in s] for strings. *)
Fixpoint contains (sub s : string) : bool :=
  String.prefix sub s ||
  match s with
  | EmptyString => false
  | String _ r => contains sub r
  end.

(** [s.lower()] on the code points below 256: the capitals A..Z and the
    Latin-1 capitals U+00C0..U+00DE (the sign U+00D7 apart) move up by 32. *)
Definition lower_ascii (c : ascii) : ascii :=
  let n := nat_of_ascii c in
  if (((65 <=? n) && (n <=? 90)) || ((192 <=? n) && (n <=? 214))
      || ((216 <=? n) && (n <=? 222)))%nat
  then ascii_of_nat (n + 32) else c.

Fixpoint lower (s : string) : string :=
  match s with
  | EmptyString => EmptyString
  | String c r => String (lower_ascii c) (lower r)
  end.

(** [sorted(l, key=key)] where the keys are strings: Python's sort is stable
    and compares keys with [<] only.  The stable sorted arrangement of a list
    under a total order is unique, so stable insertion computes the list that
    Python's merge sort returns. *)
Section Sorted.
Context {A : Type} (key : A -> string).

Fixpoint insert_by (x : A) (l : list A) : list A :=
  match l with
  | [] => [x]
  | y :: l' => if String.ltb (key y) (key x) then y :: insert_by x l' else x :: l
  end.

Fixpoint sorted (l : list A) : list A :=
  match l with
  | [] => []
  | x :: l' => insert_by x (sorted l')
  end.
End Sorted.

End Py.

(* ===================================================================== *)
(** ** format_raw.py: the reformatter *)
(* ===================================================================== *)

Module FormatRaw.
Import Py.

(** What the loop body of [format_proteomefiles] does with one file. *)
Inductive outcome : Type :=
| Written (sorted_lines : list string)   (* [file.writelines(sorted_lines)] *)
| Skipped                                (* "Incorrect format", [continue] *)
| Raised (e : exn).

Definition selected_columns : list nat := [0; 1; 5; 6; 7].

(** The renaming [header[0] = 'Accession Number'; ...; header[7] = '3']
    (only reached when [len(header) == 8], so every index is in range). *)
Definition rename_header (header : list string) : list string :=
  <[7:="3"]> (<[6:="2"]> (<[5:="1"]>
    (<[1:="Annotation"]> (<[0:="Accession Number"]> header)))).

(** [[header[i] for i in selected_columns]]; an index out of range raises. *)
Definition select_header (header : list string) : option (list string) :=
  mapM (fun i => header !! i) selected_columns.

(** The inner loop over [selected_columns] for one data line. *)
Definition filter_columns (columns : list string) : list string :=
  List.map (fun idx => if (idx <? length columns)%nat then nth idx columns "" else "")
           selected_columns.

Definition format_row (line : string) : string :=
  let columns := split TAB (strip line) in
  join (String TAB "") (filter_columns columns) ++ String LF "".

(** [lambda x: x.split('\t')[0]] *)
Definition sort_key (x : string) : string := hd "" (split TAB x).

(** The body of the [for filepath in glob.glob(...)] loop, on the result
    [lines] of [file.readlines()]. *)
Definition format_file (lines : list string) : outcome :=
  match lines with
  | [] => Raised IndexError                      (* [lines[0]] *)
  | first :: rest =>
      let header := split TAB (strip first) in
      if (length header =? 8)%nat then
        match select_header (rename_header header) with
        | None => Raised IndexError
        | Some filtered_header =>
            let formatted_lines :=
              (join (String TAB "") filtered_header ++ String LF "")
                :: List.map format_row rest in
            match formatted_lines with
            | [] => Raised IndexError            (* [formatted_lines[0]] *)
            | h :: t => Written (h :: sorted sort_key t)
            end
        end
      else Skipped
  end.

End FormatRaw.

(* ===================================================================== *)
(** ** annotate.py: the annotator *)
(* ===================================================================== *)

Module Annotate.
Import Py.

(** The module-level loop that fills [SPO_dict]: each line is stripped and
    cut at its first tab; unpacking anything but two parts raises. *)
Definition load_line (d : gmap string string) (line : string)
  : exn + gmap string string :=
  match split1 TAB (strip line) with
  | [spo; annotation] => inr (<[spo:=annotation]> d)
  | _ => inl ValueError
  end.

Fixpoint load_lines (d : gmap string string) (lines : list string)
  : exn + gmap string string :=
  match lines with
  | [] => inr d
  | line :: rest =>
      match load_line d line with
      | inl e => inl e
      | inr d' => load_lines d' rest
      end
  end.

Definition SPO_dict (lines : list string) : exn + gmap string string :=
  load_lines ∅ lines.

(** One iteration of [for line in input_file]: the line written, or the
    exception of [columns[1] = annotation] on a one-element list. *)
Definition annotate_line (d : gmap string string) (line : string) : exn + string :=
  let columns := split TAB (strip line) in
  match columns with
  | [] => inl IndexError                                   (* [columns[0]] *)
  | spo_id :: _ =>
      let annotation := default "Unknown" (d !! spo_id) in
      if (1 <? length columns)%nat
      then inr (join (String TAB "") (<[1:=annotation]> columns) ++ String LF "")
      else inl IndexError
  end.

(** The lines written to the output file before the loop ends, and the
    exception that ended it, if any. *)
Fixpoint annotate_lines (d : gmap string string) (lines : list string)
  : list string * option exn :=
  match lines with
  | [] => ([], None)
  | line :: rest =>
      match annotate_line d line with
      | inl e => ([], Some e)
      | inr output_line =>
          let '(written, e) := annotate_lines d rest in
          (output_line :: written, e)
      end
  end.

(** The body of [annotate] for one file whose lines are [lines]:
    [readline()] yields the empty string at the end of the file. *)
Definition annotate_file (d : gmap string string) (lines : list string)
  : list string * option exn :=
  let header := strip (hd "" lines) ++ String LF "" in
  let '(written, e) := annotate_lines d (tl lines) in
  (header :: written, e).

End Annotate.

(* ===================================================================== *)
(** ** statistics_multipletests.py: the statistics stage *)
(* ===================================================================== *)

Module Statistics.
Import Py.

(** The library routines the script calls.  A test returns its p-value, or
    [None] when it raises [ValueError] (the only exception the script
    catches); [ttest_ind] takes its [equal_var] flag first;
    [multipletests p method] is the array of corrected p-values. *)
Class Libraries : Type := {
  np_log2 : float -> float;
  np_log10 : float -> float;
  ttest_ind : bool -> list float -> list float -> option float;
  mannwhitneyu : list float -> list float -> option float;
  wilcoxon : list float -> list float -> option float;
  kruskal : list float -> list float -> option float;
  f_oneway : list float -> list float -> option float;
  multipletests : list float -> string -> list float;
  pd_std : list float -> float
}.

(** The values of [test_mapping]: five function objects and the string
    ['welch']. *)
Inductive test_func : Type :=
| F_ttest_ind | S_welch | F_mannwhitneyu | F_wilcoxon | F_kruskal | F_f_oneway.

Definition test_mapping : gmap string test_func :=
  list_to_map
    [ ("t-test", F_ttest_ind); ("welch", S_welch);
      ("mannwhitneyu", F_mannwhitneyu); ("wilcoxon", F_wilcoxon);
      ("kruskal", F_kruskal); ("f_oneway", F_f_oneway) ].

Definition get_test_function (test_name : string) : test_func :=
  default F_ttest_ind (test_mapping !! lower test_name).

(** A row of the frame returned by [merge_and_format]: the accession, and
    for each of the two files its annotation and its three replicates
    (NaN where the outer merge found no partner). *)
Record MergedRow : Type := {
  Accession_Number : string;
  Annotation_1 : cell;
  rep1_1 : float; rep2_1 : float; rep3_1 : float;
  Annotation_2 : cell;
  rep1_2 : float; rep2_2 : float; rep3_2 : float
}.

Definition group1 (row : MergedRow) : list float := [rep1_1 row; rep2_1 row; rep3_1 row].
Definition group2 (row : MergedRow) : list float := [rep1_2 row; rep2_2 row; rep3_2 row].

(** The literal [10E-15]. *)
Definition small : float := 10E-15%float.

(** [sum(math.isnan(v) for v in values)] *)
Definition nan_count (values : list float) : nat :=
  fold_left (fun n v => if PrimFloat.is_nan v then S n else n) values 0.

Definition valid_triplicate (values : list float) : bool :=
  (nan_count values =? 0)%nat || (nan_count values =? 3)%nat.

Definition is_all_zero (values : list float) : bool :=
  forallb (fun v => PrimFloat.eqb v 0) values.

Definition valid_row (row : MergedRow) : bool :=
  if is_all_zero (group1 row) && is_all_zero (group2 row) then false
  else valid_triplicate (group1 row) && valid_triplicate (group2 row).

(** [fillna(0)] on a float and on a cell of an object column. *)
Definition fillna0 (x : float) : float := if PrimFloat.is_nan x then 0%float else x.

Definition fillna_cell (c : cell) : cell :=
  match c with
  | CStr _ => c
  | CNum x => CNum (fillna0 x)
  end.

Definition fillna_row (row : MergedRow) : MergedRow :=
  {| Accession_Number := Accession_Number row;
     Annotation_1 := fillna_cell (Annotation_1 row);
     rep1_1 := fillna0 (rep1_1 row); rep2_1 := fillna0 (rep2_1 row);
     rep3_1 := fillna0 (rep3_1 row);
     Annotation_2 := fillna_cell (Annotation_2 row);
     rep1_2 := fillna0 (rep1_2 row); rep2_2 := fillna0 (rep2_2 row);
     rep3_2 := fillna0 (rep3_2 row) |}.

Definition presence_annotation (suf_1 suf_2 : string) (row : MergedRow) : string :=
  if is_all_zero (group1 row) && negb (is_all_zero (group2 row)) then "Only_" ++ suf_2
  else if is_all_zero (group2 row) && negb (is_all_zero (group1 row)) then "Only_" ++ suf_1
  else "Both".

(** [.mean(axis=1)] over the three replicate columns of one file. *)
Definition row_mean (values : list float) : float :=
  match values with
  | [a; b; c] => ((a + b + c) / 3)%float
  | _ => nan
  end.

(** A pandas Series of floats: index labels with their values. *)
Definition Series : Type := list (nat * float).

Definition series_lookup (label : nat) (s : Series) : option float :=
  option_map snd (List.find (fun p => Nat.eqb (fst p) label) s).

(** [df[name] = series]: the values are aligned on the frame's index, and
    a label the series lacks gets NaN. *)
Definition align (index : list nat) (s : Series) : list float :=
  List.map (fun label => default nan (series_lookup label s)) index.

Definition replace_zero (col : list float) : list float :=
  List.map (fun x => if PrimFloat.eqb x 0 then small else x) col.

Definition replace_inf (x : float) : float :=
  if PrimFloat.is_infinity x then nan else x.

(** [calculate_log2_fold_change]: the two [Row_Average] columns as it leaves
    them in the frame, and the Series it returns.  Both columns belong to
    one frame, so the division pairs them position by position. *)
Definition calculate_log2_fold_change {L : Libraries}
    (index : list nat) (avg_1 avg_2 : list float)
  : list float * list float * Series :=
  let avg_2 := if existsb (fun x => PrimFloat.eqb x 0) avg_2
               then replace_zero avg_2 else avg_2 in
  let avg_1 := if existsb (fun x => PrimFloat.eqb x 0) avg_1
               then replace_zero avg_1 else avg_1 in
  let ratio := List.map (fun p => (fst p / snd p)%float) (combine avg_1 avg_2) in
  let logged := List.map (fun x => replace_inf (np_log2 x)) ratio in
  let log2_fc := List.filter (fun p => negb (PrimFloat.is_nan (snd p)))
                             (combine index logged) in
  (avg_1, avg_2, log2_fc).

(** One iteration of the loop of [calculate_pvalues]. *)
Definition row_pvalue {L : Libraries} (test : test_func) (row : MergedRow) : float :=
  let g1 := group1 row in
  let g2 := group2 row in
  let '(g1, g2) :=
    if forallb (fun v => PrimFloat.eqb v 0) g1 then ([small; small; small], g2)
    else if forallb (fun v => PrimFloat.eqb v 0) g2 then (g1, [small; small; small])
    else (g1, g2) in
  let p_val :=
    match test with
    | S_welch => ttest_ind false g1 g2
    | F_ttest_ind => ttest_ind true g1 g2
    | F_mannwhitneyu => mannwhitneyu g1 g2
    | F_wilcoxon => wilcoxon g1 g2
    | F_kruskal => kruskal g1 g2
    | F_f_oneway => f_oneway g1 g2
    end in
  default 1%float p_val.                                   (* [except ValueError] *)

Definition calculate_pvalues {L : Libraries} (rows : list MergedRow) (test : test_func)
  : list float :=
  List.map (row_pvalue test) rows.

Definition neg_log10 {L : Libraries} (x : float) : float := (- np_log10 x)%float.

Definition valid_methods : list string :=
  ["bonferroni"; "holm"; "sidak"; "fdr_bh"; "fdr_by"].

(** [multiple_testing_correction]: what it prints, and the pair it returns. *)
Definition multiple_testing_correction {L : Libraries}
    (p_values : list float) (method : string)
  : list string * (list float * list float) :=
  if String.eqb method "None" then
    (["No multiple testing correction applied."],
     (p_values, List.map neg_log10 p_values))
  else if negb (existsb (String.eqb method) valid_methods) then
    (["Invalid correction method '" ++ method ++ "', using 'None' by default."],
     (p_values, List.map neg_log10 p_values))
  else
    let corrected_pvals := multipletests p_values method in
    ([], (corrected_pvals, List.map neg_log10 corrected_pvals)).

(** A data frame: its index labels and its named columns, in order. *)
Inductive column : Type :=
| Floats (xs : list float)
| Objects (xs : list cell).

Record DataFrame : Type := {
  df_index : list nat;
  df_columns : list (string * column)
}.

(** [df[name]] *)
Definition getitem (name : string) (df : DataFrame) : exn + column :=
  match List.find (fun p => String.eqb (fst p) name) (df_columns df) with
  | Some p => inr (snd p)
  | None => inl (KeyError name)
  end.

(** [df[name] = col]: replaces the column of that name or appends one. *)
Fixpoint set_column (name : string) (col : column) (cols : list (string * column))
  : list (string * column) :=
  match cols with
  | [] => [(name, col)]
  | (n, c) :: rest =>
      if String.eqb n name then (name, col) :: rest
      else (n, c) :: set_column name col rest
  end.

Definition setitem (name : string) (col : column) (df : DataFrame) : DataFrame :=
  {| df_index := df_index df; df_columns := set_column name col (df_columns df) |}.

Inductive result : Type :=
| Exported (df : DataFrame)      (* [combined_df.to_csv(...)] was reached *)
| Raised (e : exn).

(** [-np.log10(df[name])] stored as column [target]. *)
Definition add_neg_log10 {L : Libraries} (target name : string) (df : DataFrame) : result :=
  match getitem name df with
  | inl e => Raised e
  | inr (Floats xs) => Exported (setitem target (Floats (List.map neg_log10 xs)) df)
  | inr (Objects _) => Raised TypeError
  end.

(** [process_files] from the merged frame on.  [suf_1] and [suf_2] are the
    two column suffixes the script derives from the file names; the merged
    frame has the index 0, 1, ...; reading and merging the files, the
    console output and the name of the exported file are left out.

    When the two suffixes are equal, the replicate columns of the two files
    have the same names and the merge appends the suffix to them once more,
    so the first row that [valid_row] reads has no column [1_<suffix>].
    When no row is left after the filter (as on a merged frame without
    rows), [apply] has no row to call [presence_annotation] on and returns
    a frame instead of a column, and the assignment to [Present_Only_In]
    raises. *)
Definition process_files {L : Libraries} (suf_1 suf_2 : string)
    (merged : list MergedRow) (test_name correction_method : string) : result :=
  (* [row[f'1_{suf_1}']] in [valid_row], on the first row *)
  if String.eqb suf_1 suf_2 && negb (length merged =? 0)%nat
  then Raised (KeyError ("1_" ++ suf_1)) else
  let test := get_test_function test_name in
  (* rows that pass [valid_row], then [fillna(0)] *)
  let kept := List.filter (fun p => valid_row (snd p))
                          (combine (seq 0 (length merged)) merged) in
  let index := List.map fst kept in
  let rows := List.map (fun p => fillna_row (snd p)) kept in
  (* [combined_df['Present_Only_In'] = combined_df.apply(...)] *)
  if (length rows =? 0)%nat then Raised ValueError else
  let present := List.map (presence_annotation suf_1 suf_2) rows in
  let avg_1 := List.map (fun r => row_mean (group1 r)) rows in
  let std_1 := List.map (fun r => pd_std (group1 r)) rows in
  let avg_2 := List.map (fun r => row_mean (group2 r)) rows in
  let std_2 := List.map (fun r => pd_std (group2 r)) rows in
  let '(avg_1, avg_2, log2_fc) := calculate_log2_fold_change index avg_1 avg_2 in
  let raw_pvals := calculate_pvalues rows test in
  let '(adj, neglog) :=
    if negb (String.eqb correction_method "None")
    then snd (multiple_testing_correction raw_pvals correction_method)
    else (raw_pvals, List.map neg_log10 raw_pvals) in
  (* assigning an array of the wrong length to a column raises *)
  if negb (length adj =? length index)%nat then Raised ValueError else
  let df :=
    {| df_index := index;
       df_columns :=
         [ ("Accession Number", Objects (List.map (fun r => CStr (Accession_Number r)) rows));
           ("Annotation" ++ suf_1, Objects (List.map Annotation_1 rows));
           ("1_" ++ suf_1, Floats (List.map rep1_1 rows));
           ("2_" ++ suf_1, Floats (List.map rep2_1 rows));
           ("3_" ++ suf_1, Floats (List.map rep3_1 rows));
           ("Annotation" ++ suf_2, Objects (List.map Annotation_2 rows));
           ("1_" ++ suf_2, Floats (List.map rep1_2 rows));
           ("2_" ++ suf_2, Floats (List.map rep2_2 rows));
           ("3_" ++ suf_2, Floats (List.map rep3_2 rows));
           ("Present_Only_In", Objects (List.map CStr present));
           ("Row_Average_" ++ suf_1, Floats avg_1);
           ("STD_" ++ suf_1, Floats std_1);
           ("Row_Average_" ++ suf_2, Floats avg_2);
           ("STD_" ++ suf_2, Floats std_2);
           ("Log2_Fold_Change", Floats (align index log2_fc));
           ("Adj_P_Values", Floats adj);
           ("-log10(Adj_P_Values)", Floats neglog) ] |} in
  if negb (String.eqb correction_method "None")
  then add_neg_log10 "Log10_Adj_P_Values" "Adj_P_Values" df
  else add_neg_log10 "Log10_P_Values" "P_Values" df.

End Statistics.

(* ===================================================================== *)
(** ** significant_list.py: the significance extractor *)
(* ===================================================================== *)

Module SignificantList.
Import Py.

(** Position [i] of the five sequences passed to [significant_list] (the
    caller slices all five from one data frame, so they have one length). *)
Record InputRow : Type := {
  log2_fc : float;
  pval : float;
  ann : string;
  acc : string;
  cond : string
}.

(** The twelve lists the loop appends to; [None] is Python's [None]. *)
Record Lists : Type := {
  sign_plus : list (option cell);
  accession_sign_plus : list (option cell);
  fc_plus : list (option cell);
  pval_plus : list (option cell);
  sign_minus : list (option cell);
  accession_sign_minus : list (option cell);
  fc_minus : list (option cell);
  pval_minus : list (option cell);
  sign_plus_zero : list (option cell);
  accession_sign_plus_zero : list (option cell);
  sign_minus_zero : list (option cell);
  accession_sign_minus_zero : list (option cell)
}.

Definition empty_lists : Lists :=
  {| sign_plus := []; accession_sign_plus := []; fc_plus := []; pval_plus := [];
     sign_minus := []; accession_sign_minus := []; fc_minus := []; pval_minus := [];
     sign_plus_zero := []; accession_sign_plus_zero := [];
     sign_minus_zero := []; accession_sign_minus_zero := [] |}.

(** Appending one entry to the four "+" lists, to the four "-" lists, and
    to each pair of zero-condition lists. *)
Definition append_plus (e : option (cell * cell * cell * cell)) (st : Lists) : Lists :=
  {| sign_plus := sign_plus st ++ [option_map (fun q => fst (fst (fst q))) e];
     accession_sign_plus := accession_sign_plus st ++ [option_map (fun q => snd (fst (fst q))) e];
     fc_plus := fc_plus st ++ [option_map (fun q => snd (fst q)) e];
     pval_plus := pval_plus st ++ [option_map snd e];
     sign_minus := sign_minus st; accession_sign_minus := accession_sign_minus st;
     fc_minus := fc_minus st; pval_minus := pval_minus st;
     sign_plus_zero := sign_plus_zero st;
     accession_sign_plus_zero := accession_sign_plus_zero st;
     sign_minus_zero := sign_minus_zero st;
     accession_sign_minus_zero := accession_sign_minus_zero st |}.

Definition append_minus (e : option (cell * cell * cell * cell)) (st : Lists) : Lists :=
  {| sign_plus := sign_plus st; accession_sign_plus := accession_sign_plus st;
     fc_plus := fc_plus st; pval_plus := pval_plus st;
     sign_minus := sign_minus st ++ [option_map (fun q => fst (fst (fst q))) e];
     accession_sign_minus := accession_sign_minus st ++ [option_map (fun q => snd (fst (fst q))) e];
     fc_minus := fc_minus st ++ [option_map (fun q => snd (fst q)) e];
     pval_minus := pval_minus st ++ [option_map snd e];
     sign_plus_zero := sign_plus_zero st;
     accession_sign_plus_zero := accession_sign_plus_zero st;
     sign_minus_zero := sign_minus_zero st;
     accession_sign_minus_zero := accession_sign_minus_zero st |}.

Definition append_plus_zero (a c : cell) (st : Lists) : Lists :=
  {| sign_plus := sign_plus st; accession_sign_plus := accession_sign_plus st;
     fc_plus := fc_plus st; pval_plus := pval_plus st;
     sign_minus := sign_minus st; accession_sign_minus := accession_sign_minus st;
     fc_minus := fc_minus st; pval_minus := pval_minus st;
     sign_plus_zero := sign_plus_zero st ++ [Some a];
     accession_sign_plus_zero := accession_sign_plus_zero st ++ [Some c];
     sign_minus_zero := sign_minus_zero st;
     accession_sign_minus_zero := accession_sign_minus_zero st |}.

Definition append_minus_zero (a c : cell) (st : Lists) : Lists :=
  {| sign_plus := sign_plus st; accession_sign_plus := accession_sign_plus st;
     fc_plus := fc_plus st; pval_plus := pval_plus st;
     sign_minus := sign_minus st; accession_sign_minus := accession_sign_minus st;
     fc_minus := fc_minus st; pval_minus := pval_minus st;
     sign_plus_zero := sign_plus_zero st;
     accession_sign_plus_zero := accession_sign_plus_zero st;
     sign_minus_zero := sign_minus_zero st ++ [Some a];
     accession_sign_minus_zero := accession_sign_minus_zero st ++ [Some c] |}.

(** The four values a significant row puts in its columns. *)
Definition entry (r : InputRow) : cell * cell * cell * cell :=
  (CStr (ann r), CStr (acc r), CNum (log2_fc r), CNum (pval r)).

(** The body of the [for i in range(len(log2_fold_change))] loop. *)
Definition loop_body (st : Lists) (r : InputRow) : Lists :=
  if (2 <? pval r)%float then
    let st :=
      if contains "Only_" (cond r) && (0 <? log2_fc r)%float
      then append_plus_zero (CStr (ann r)) (CStr (acc r)) st else st in
    let st :=
      if contains "Only_" (cond r) && (log2_fc r <? 0)%float
      then append_minus_zero (CStr (ann r)) (CStr (acc r)) st else st in
    if (2 <? log2_fc r)%float then
      append_minus None (append_plus (Some (entry r)) st)
    else if (log2_fc r <? -2)%float then
      append_plus None (append_minus (Some (entry r)) st)
    else
      append_minus None (append_plus None st)
  else
    append_minus None (append_plus None st).

(** A row of [final_df]: the eight columns of [significant_df] and the four
    of [zero_df], in the order of [pd.concat(..., axis=1)]. *)
Record SummaryRow : Type := {
  Significant_Overexpressed : option cell;
  Accession_Number_plus : option cell;
  log2FC_plus : option cell;
  neg_log10_adj_p_plus : option cell;
  Significant_Underexpressed : option cell;
  Accession_Number_minus : option cell;
  log2FC_minus : option cell;
  neg_log10_adj_p_minus : option cell;
  Zero_Condition_Overexpressed : option cell;
  Accession_Zero_plus : option cell;
  Zero_Condition_Underexpressed : option cell;
  Accession_Zero_minus : option cell
}.

Definition cells (row : SummaryRow) : list (option cell) :=
  [ Significant_Overexpressed row; Accession_Number_plus row; log2FC_plus row;
    neg_log10_adj_p_plus row; Significant_Underexpressed row;
    Accession_Number_minus row; log2FC_minus row; neg_log10_adj_p_minus row;
    Zero_Condition_Overexpressed row; Accession_Zero_plus row;
    Zero_Condition_Underexpressed row; Accession_Zero_minus row ].

(** pandas' missing values: [None] and NaN. *)
Definition isna (c : option cell) : bool :=
  match c with
  | None => true
  | Some (CNum x) => PrimFloat.is_nan x
  | Some (CStr _) => false
  end.

(** [l + [None] * (n - len(l))] *)
Definition pad (n : nat) (l : list (option cell)) : list (option cell) :=
  l ++ repeat None (n - length l).

(** Cell [i] of a column in the concatenated frame: a label the column's
    own frame lacks is missing. *)
Definition at_label (i : nat) (col : list (option cell)) : option cell :=
  nth i col None.

(** [significant_list]: the rows of [final_df] with their index labels.
    [significant_df] has one row per input row and [zero_df] as many rows
    as the longer zero-condition list; [pd.concat(axis=1)] joins them on the
    index, and [dropna(how='all')] removes the rows with no value at all. *)
Definition significant_list (rows : list InputRow) : list (nat * SummaryRow) :=
  let st := fold_left loop_body rows empty_lists in
  let n_zero := Nat.max (length (sign_plus_zero st)) (length (sign_minus_zero st)) in
  let zero_plus := pad n_zero (sign_plus_zero st) in
  let acc_zero_plus := pad n_zero (accession_sign_plus_zero st) in
  let zero_minus := pad n_zero (sign_minus_zero st) in
  let acc_zero_minus := pad n_zero (accession_sign_minus_zero st) in
  let n := Nat.max (length (sign_plus st)) n_zero in
  let final_df :=
    List.map (fun i =>
      (i, {| Significant_Overexpressed := at_label i (sign_plus st);
             Accession_Number_plus := at_label i (accession_sign_plus st);
             log2FC_plus := at_label i (fc_plus st);
             neg_log10_adj_p_plus := at_label i (pval_plus st);
             Significant_Underexpressed := at_label i (sign_minus st);
             Accession_Number_minus := at_label i (accession_sign_minus st);
             log2FC_minus := at_label i (fc_minus st);
             neg_log10_adj_p_minus := at_label i (pval_minus st);
             Zero_Condition_Overexpressed := at_label i zero_plus;
             Accession_Zero_plus := at_label i acc_zero_plus;
             Zero_Condition_Underexpressed := at_label i zero_minus;
             Accession_Zero_minus := at_label i acc_zero_minus |}))
      (seq 0 n) in
  List.filter (fun p => negb (forallb isna (cells (snd p)))) final_df.

End SignificantList.

(* ===================================================================== *)
(** ** statistics_multipletests.py: the command line *)
(* ===================================================================== *)

Module StatisticsMain.
Import Py Statistics.

(** Why the script stopped: an exception of [process_files], or the use of
    a name that no branch has bound. *)
Inductive error : Type :=
| Stage (e : exn)
| NameError (name : string).

(** The frames exported so far, and how the script ended. *)
Inductive outcome : Type :=
| Usage                                              (* usage line, [sys.exit(1)] *)
| Aborted (exported : list DataFrame) (e : error)
| Finished (exported : list DataFrame).

Definition valid_corrections : list string :=
  ["bonferroni"; "fdr_bh"; "fdr_by"; "holm"; "sidak"].

(** The [__main__] block on [sys.argv = argv].  The two files named by
    [argv[1]] and [argv[2]] are given by what [process_files] makes of them:
    the suffixes and the merged frame, the same at both calls. *)
Definition main {L : Libraries} (suf_1 suf_2 : string) (merged : list MergedRow)
    (argv : list string) : outcome :=
  let n := length argv in
  if ((n <? 3) || (5 <? n))%nat then Usage else
  let test := if (3 <? n)%nat then nth 3 argv "" else "t-test" in
  let correction := if (4 <? n)%nat then nth 4 argv "" else "None" in
  match process_files suf_1 suf_2 merged test correction with
  | Raised e => Aborted [] (Stage e)
  | Exported first =>
      (* [test_name] is bound only by some of the branches *)
      let '(test_name, correction) :=
        if (n =? 3)%nat then (None, correction)
        else if (n =? 4)%nat then
          let arg := lower (nth 3 argv "") in
          if existsb (String.eqb arg) valid_corrections
          then (None, arg) else (Some arg, correction)
        else (Some (lower (nth 3 argv "")), lower (nth 4 argv "")) in
      match test_name with
      | None => Aborted [first] (NameError "test_name")
      | Some test_name =>
          match process_files suf_1 suf_2 merged test_name correction with
          | Raised e => Aborted [first] (Stage e)
          | Exported second => Finished [first; second]
          end
      end
  end.

End StatisticsMain.

(* ===================================================================== *)
(** ** volcano_plot.py: the points and their colours *)
(* ===================================================================== *)

Module VolcanoPlot.
Import Py.

(** Position [i] of the sequences passed to [volcano_plot]. *)
Record Point : Type := {
  log2_fold_change : float;
  transformed_pvalue : float;
  present_only_in : cell
}.

(** ["Only_" in str(v)]: the text of a float holds digits, a sign, a point,
    an exponent, [inf] or [nan], never ["Only_"]. *)
Definition only_in (v : cell) : bool :=
  match v with
  | CStr s => contains "Only_" s
  | CNum _ => false
  end.

Definition dark_green : string := "#006400".
Definition orange : string := "#FFA500".
Definition blue : string := "#3f65d4".
Definition grey : string := "rgba(150,150,150,0.5)".

(** The body of the loop that fills [colors]. *)
Definition colour (p : Point) : string :=
  if only_in (present_only_in p) then dark_green
  else if (2 <? transformed_pvalue p)%float then
    if (2 <? log2_fold_change p)%float then orange
    else if (log2_fold_change p <? -2)%float then blue
    else grey
  else grey.

Definition colors (points : list Point) : list string := List.map colour points.

(** The row filter of the [__main__] block:
    [df[(df.iloc[:, 14] <= 15) & (df.iloc[:, 14] >= -15)]]. *)
Definition plotted (points : list Point) : list Point :=
  List.filter
    (fun p => (log2_fold_change p <=? 15)%float && (-15 <=? log2_fold_change p)%float)
    points.

End VolcanoPlot.

(* ===================================================================== *)
(** * Properties *)
(* ===================================================================== *)

(** ** Tab-separated lines *)

Module Lines.
Import Py.

(** [free_of c s]: the character [c] does not occur in [s]. *)
Fixpoint free_of (c : ascii) (s : string) : bool :=
  match s with
  | EmptyString => true
  | String a r => negb (Ascii.eqb a c) && free_of c r
  end.

(** A line without its terminator. *)
Fixpoint chomp (line : string) : string :=
  match line with
  | EmptyString => EmptyString
  | String c r =>
      match r with
      | EmptyString => if Ascii.eqb c LF then EmptyString else line
      | _ => String c (chomp r)
      end
  end.

(** The tab-separated fields of a line of a file. *)
Definition fields (line : string) : list string := split TAB (chomp line).

(** The line that holds the given fields. *)
Definition tsv (fs : list string) : string := join (String TAB "") fs ++ String LF "".

(** Columns 1, 2, 6, 7 and 8 of a row; a column the row lacks reads as the
    empty string. *)
Definition columns_1_2_6_7_8 (fs : list string) : list string :=
  List.map (fun i => nth i fs "") [0; 1; 5; 6; 7].

(** A line is [clean] when stripping it removes its terminator and nothing
    else: no blank or tab at either end. *)
Definition clean (line : string) : Prop := strip line = chomp line.

(** [tabs k]: [k] tab characters. *)
Fixpoint tabs (k : nat) : string :=
  match k with
  | 0 => EmptyString
  | S k => String TAB (tabs k)
  end.

(** Stripping the line removes its terminator and the tabs before it, and
    nothing else: the line is a clean line followed by empty fields. *)
Definition trailing_tabs_only (line : string) : Prop :=
  exists k, chomp line = strip line ++ tabs k.

(** Stripping the line leaves its columns 1, 2, 6, 7 and 8 as they are. *)
Definition strip_keeps_columns (line : string) : Prop :=
  columns_1_2_6_7_8 (split TAB (strip line)) = columns_1_2_6_7_8 (fields line).

(** No tab is among the characters that stripping removes from the two ends
    of the line. *)
Definition strips_no_tab (line : string) : Prop :=
  exists a b, chomp line = a ++ strip line ++ b /\
              free_of TAB a = true /\ free_of TAB b = true.

Lemma split_free sep s : Forall (fun f => free_of sep f = true) (split sep s).
Proof.
  induction s as [|c r IH]; simpl.
  - constructor; [reflexivity | constructor].
  - destruct (Ascii.eqb c sep) eqn:E.
    + constructor; [reflexivity | exact IH].
    + destruct (split sep r) as [|f fs].
      * constructor; [simpl; rewrite E; reflexivity | constructor].
      * inversion IH as [|? ? Hf Hfs]; subst.
        constructor; [simpl; rewrite E, Hf; reflexivity | exact Hfs].
Qed.

Lemma split_of_free sep s : free_of sep s = true -> split sep s = [s].
Proof.
  induction s as [|c r IH]; simpl; [reflexivity|].
  intros H. apply andb_true_iff in H as [Hc Hr].
  apply negb_true_iff in Hc. rewrite Hc, (IH Hr). reflexivity.
Qed.

Lemma split_app_sep sep a r :
  free_of sep a = true -> split sep (a ++ String sep r) = a :: split sep r.
Proof.
  induction a as [|c a IH]; simpl; intros H.
  - rewrite Ascii.eqb_refl. reflexivity.
  - apply andb_true_iff in H as [Hc Ha].
    apply negb_true_iff in Hc. rewrite Hc, (IH Ha). reflexivity.
Qed.

Lemma split_join sep l :
  l <> [] -> Forall (fun f => free_of sep f = true) l ->
  split sep (join (String sep "") l) = l.
Proof.
  induction l as [|a l IH]; [congruence|].
  intros _ Hall. inversion Hall as [|? ? Ha Hl]; subst.
  destruct l as [|b l].
  - simpl. apply split_of_free, Ha.
  - change (join (String sep "") (a :: b :: l))
      with (a ++ String sep (join (String sep "") (b :: l))).
    rewrite (split_app_sep _ _ _ Ha), IH; [reflexivity | discriminate | exact Hl].
Qed.

Lemma chomp_cons c r : r <> EmptyString -> chomp (String c r) = String c (chomp r).
Proof. destruct r; [congruence | reflexivity]. Qed.

Lemma chomp_app_LF s : chomp (s ++ String LF "") = s.
Proof.
  induction s as [|c r IH]; [reflexivity|].
  change (String c r ++ String LF "") with (String c (r ++ String LF "")).
  rewrite chomp_cons, IH; [reflexivity|].
  destruct r; discriminate.
Qed.

Lemma fields_tsv fs :
  fs <> [] -> Forall (fun f => free_of TAB f = true) fs -> fields (tsv fs) = fs.
Proof.
  intros Hne Hfree. unfold fields, tsv. rewrite chomp_app_LF.
  apply split_join; assumption.
Qed.

Lemma append_empty (s : string) : s ++ "" = s.
Proof. induction s as [|c s IH]; simpl; [reflexivity | rewrite IH; reflexivity]. Qed.

Lemma split_cons sep c r :
  split sep (String c r)
  = if Ascii.eqb c sep then EmptyString :: split sep r
    else String c (hd "" (split sep r)) :: tl (split sep r).
Proof.
  simpl. destruct (Ascii.eqb c sep); [reflexivity|].
  destruct (split sep r) eqn:E; [|reflexivity].
  destruct r; simpl in E; [discriminate|].
  destruct (Ascii.eqb _ sep); [discriminate|].
  destruct (split sep r); discriminate.
Qed.

Lemma split_length sep c r :
  length (split sep (String c r))
  = if Ascii.eqb c sep then S (length (split sep r)) else length (split sep r).
Proof.
  rewrite split_cons. destruct (Ascii.eqb c sep); [reflexivity|].
  destruct r as [|d r]; [reflexivity|].
  rewrite split_cons. destruct (Ascii.eqb d sep); reflexivity.
Qed.

(** Cutting at a separator: the fields before it, then the fields after. *)
Lemma split_app sep a r :
  split sep (a ++ String sep r) = (split sep a ++ split sep r)%list.
Proof.
  induction a as [|c a IH].
  - simpl. rewrite Ascii.eqb_refl. reflexivity.
  - change (String c a ++ String sep r) with (String c (a ++ String sep r)).
    rewrite !split_cons, IH. destruct (Ascii.eqb c sep); [reflexivity|].
    destruct a as [|d a]; [reflexivity|].
    rewrite split_cons. destruct (Ascii.eqb d sep); reflexivity.
Qed.

Lemma split_tabs k : split TAB (tabs k) = repeat "" (S k).
Proof. induction k as [|k IH]; [reflexivity|]. simpl tabs. rewrite split_cons, IH. reflexivity. Qed.

(** Tabs at the end of a line are so many empty fields. *)
Lemma split_app_tabs s k : split TAB (s ++ tabs k) = (split TAB s ++ repeat "" k)%list.
Proof.
  destruct k as [|k].
  - simpl. rewrite append_empty, app_nil_r. reflexivity.
  - simpl tabs. rewrite split_app, split_tabs. reflexivity.
Qed.

Lemma nth_app_blank (l : list string) k i : nth i (l ++ repeat "" k) "" = nth i l "".
Proof.
  destruct (Nat.lt_ge_cases i (length l)) as [Hlt|Hge].
  - apply app_nth1, Hlt.
  - rewrite app_nth2 by exact Hge. rewrite nth_repeat.
    symmetry. apply nth_overflow, Hge.
Qed.

Lemma columns_app_blank l k :
  columns_1_2_6_7_8 (l ++ repeat "" k) = columns_1_2_6_7_8 l.
Proof. unfold columns_1_2_6_7_8. simpl. rewrite !nth_app_blank. reflexivity. Qed.

(** Stripping a line that ends in empty fields keeps its columns. *)
Lemma trailing_tabs_columns line : trailing_tabs_only line -> strip_keeps_columns line.
Proof.
  intros [k Hk]. unfold strip_keeps_columns, fields.
  rewrite Hk, split_app_tabs, columns_app_blank. reflexivity.
Qed.

Lemma clean_trailing_tabs_only line : clean line -> trailing_tabs_only line.
Proof. intros H. exists 0. simpl. rewrite append_empty. symmetry. exact H. Qed.

Lemma split_length_prefix sep a s :
  free_of sep a = true -> length (split sep (a ++ s)) = length (split sep s).
Proof.
  induction a as [|c a IH]; simpl free_of; intros H; [reflexivity|].
  apply andb_true_iff in H as [Hc Ha]. apply negb_true_iff in Hc.
  change (String c a ++ s) with (String c (a ++ s)).
  rewrite split_length, Hc. apply IH, Ha.
Qed.

Lemma split_length_suffix sep s b :
  free_of sep b = true -> length (split sep (s ++ b)) = length (split sep s).
Proof.
  intros Hb. induction s as [|c s IH].
  - simpl. rewrite (split_of_free _ _ Hb). reflexivity.
  - change (String c s ++ b) with (String c (s ++ b)).
    rewrite !split_length, IH. reflexivity.
Qed.

(** A line loses no field when stripping removes no tab. *)
Lemma strips_no_tab_width line :
  strips_no_tab line -> length (split TAB (strip line)) = length (fields line).
Proof.
  intros (a & b & Hline & Ha & Hb). unfold fields. rewrite Hline.
  rewrite (split_length_prefix _ _ _ Ha), (split_length_suffix _ _ _ Hb).
  reflexivity.
Qed.

Lemma clean_strips_no_tab line : clean line -> strips_no_tab line.
Proof.
  intros H. exists "", "". simpl. rewrite append_empty. auto.
Qed.

(** White space is not ASCII only: a no-break space (U+00A0) and a NEL
    (U+0085) at the ends of a line are stripped with the blanks, so a line
    that ends in one is not clean. *)
Example strip_removes_latin1_space :
  strip (String "160" ("SPO0001" ++ String "133" (String " " (String LF ""))))
    = "SPO0001" /\
  ~ clean ("SPO0001" ++ String "160" (String LF "")).
Proof.
  split; [vm_compute; reflexivity|].
  unfold clean. vm_compute. discriminate.
Qed.

End Lines.

(** ** The order on strings and [sorted] *)

Module SortFacts.
Import Py.

Lemma ascii_compare_eq a b : Ascii.compare a b = Eq -> a = b.
Proof. apply Ascii.compare_eq_iff. Qed.

Lemma ascii_compare_lt_trans a b c :
  Ascii.compare a b = Lt -> Ascii.compare b c = Lt -> Ascii.compare a c = Lt.
Proof.
  unfold Ascii.compare. rewrite !N.compare_lt_iff. apply N.lt_trans.
Qed.

Lemma compare_le_trans a : forall b c,
  String.compare a b <> Gt -> String.compare b c <> Gt -> String.compare a c <> Gt.
Proof.
  induction a as [|x a IH]; intros [|y b] [|z c]; simpl; try congruence.
  destruct (Ascii.compare x y) eqn:Exy; try congruence;
    destruct (Ascii.compare y z) eqn:Eyz; try congruence.
  - apply ascii_compare_eq in Exy, Eyz. subst.
    assert (Ascii.compare z z = Eq) as ->
      by (unfold Ascii.compare; apply N.compare_refl).
    apply IH.
  - apply ascii_compare_eq in Exy. subst. rewrite Eyz. congruence.
  - apply ascii_compare_eq in Eyz. subst. rewrite Exy. congruence.
  - rewrite (ascii_compare_lt_trans _ _ _ Exy Eyz). congruence.
Qed.

Lemma leb_trans a b c :
  String.leb a b = true -> String.leb b c = true -> String.leb a c = true.
Proof.
  unfold String.leb. intros Hab Hbc.
  pose proof (compare_le_trans a b c) as H.
  destruct (String.compare a b), (String.compare b c), (String.compare a c);
    try reflexivity; try discriminate; exfalso; apply H; congruence.
Qed.

Lemma ltb_false_leb a b : String.ltb a b = false -> String.leb b a = true.
Proof.
  unfold String.ltb, String.leb. rewrite (String.compare_antisym a b).
  destruct (String.compare b a); simpl; congruence.
Qed.

Lemma ltb_leb a b : String.ltb a b = true -> String.leb a b = true.
Proof.
  unfold String.ltb, String.leb. destruct (String.compare a b); congruence.
Qed.

Section Keyed.
Context {A : Type} (key : A -> string).

(** [a] may stand before [b] in a list sorted by [key]. *)
Definition key_le (a b : A) : Prop := String.leb (key a) (key b) = true.

Lemma insert_by_perm x l : Permutation (insert_by key x l) (x :: l).
Proof.
  induction l as [|y l IH]; simpl; [reflexivity|].
  destruct (String.ltb (key y) (key x)); [|reflexivity].
  rewrite IH. apply perm_swap.
Qed.

Lemma sorted_perm l : Permutation (sorted key l) l.
Proof.
  induction l as [|x l IH]; simpl; [reflexivity|].
  rewrite insert_by_perm. apply perm_skip, IH.
Qed.

Lemma insert_by_sorted x l :
  StronglySorted key_le l -> StronglySorted key_le (insert_by key x l).
Proof.
  induction 1 as [|y l Hs IH Hy]; simpl.
  - repeat constructor.
  - destruct (String.ltb (key y) (key x)) eqn:E.
    + constructor; [exact IH|].
      rewrite (List.Forall_forall (key_le y)). intros z Hz.
      apply (Permutation_in _ (insert_by_perm x l)) in Hz.
      destruct Hz as [<-|Hz]; [apply ltb_leb, E|].
      rewrite List.Forall_forall in Hy. apply Hy, Hz.
    + apply ltb_false_leb in E.
      constructor; [constructor; assumption|].
      constructor; [exact E|].
      rewrite List.Forall_forall in *. intros z Hz.
      exact (leb_trans _ _ _ E (Hy z Hz)).
Qed.

Lemma sorted_sorted l : StronglySorted key_le (sorted key l).
Proof.
  induction l as [|x l IH]; simpl; [constructor | apply insert_by_sorted, IH].
Qed.
End Keyed.

End SortFacts.

(** ** The reformatter *)

Section Reformatter.
Import Py Lines FormatRaw SortFacts.

(** The header line every output file starts with. *)
Definition fixed_header : string :=
  tsv ["Accession Number"; "Annotation"; "1"; "2"; "3"].

(** The first field of a line. *)
Definition first_field (line : string) : string := hd "" (fields line).

Lemma append_assoc (a b c : string) : (a ++ b) ++ c = a ++ (b ++ c).
Proof. induction a as [|x a IH]; simpl; [reflexivity | rewrite IH; reflexivity]. Qed.

Lemma free_nth sep (l : list string) i :
  Forall (fun f => free_of sep f = true) l -> free_of sep (nth i l "") = true.
Proof.
  intros H. revert i. induction H as [|f l Hf _ IH]; intros [|i]; simpl; auto.
Qed.

Lemma filter_columns_select cols : filter_columns cols = columns_1_2_6_7_8 cols.
Proof.
  unfold filter_columns, columns_1_2_6_7_8, selected_columns.
  apply map_ext. intros i. destruct (i <? length cols)%nat eqn:E; [reflexivity|].
  apply Nat.ltb_ge in E. symmetry. apply nth_overflow, E.
Qed.

Lemma select_free cols :
  Forall (fun f => free_of TAB f = true) cols ->
  Forall (fun f => free_of TAB f = true) (columns_1_2_6_7_8 cols).
Proof.
  intros H. unfold columns_1_2_6_7_8. repeat constructor; apply free_nth, H.
Qed.

Lemma fields_format_row line :
  fields (format_row line) = columns_1_2_6_7_8 (split TAB (strip line)).
Proof.
  unfold format_row. rewrite filter_columns_select.
  apply (fields_tsv (columns_1_2_6_7_8 _)); [discriminate|].
  apply select_free, split_free.
Qed.

Lemma sort_key_format_row line :
  sort_key (format_row line) = first_field (format_row line).
Proof.
  unfold first_field. rewrite fields_format_row.
  unfold sort_key, format_row. rewrite filter_columns_select.
  pose proof (select_free _ (split_free TAB (strip line))) as Hfree.
  unfold columns_1_2_6_7_8 in *. simpl List.map in *.
  inversion Hfree as [|? ? H0 _]; subst.
  simpl join. rewrite append_assoc. simpl.
  rewrite (split_app_sep TAB _ _ H0). reflexivity.
Qed.

Lemma format_file_eight first rest :
  length (split TAB (strip first)) = 8 ->
  format_file (first :: rest)
  = Written (fixed_header :: sorted sort_key (List.map format_row rest)).
Proof.
  intros H. unfold format_file. rewrite H. simpl Nat.eqb. cbv iota.
  destruct (split TAB (strip first))
    as [|h0 [|h1 [|h2 [|h3 [|h4 [|h5 [|h6 [|h7 [|h8 t]]]]]]]]];
    try discriminate H.
  reflexivity.
Qed.

Lemma format_file_not_eight first rest :
  length (split TAB (strip first)) <> 8 -> format_file (first :: rest) = Skipped.
Proof.
  intros H. unfold format_file. apply Nat.eqb_neq in H. rewrite H. reflexivity.
Qed.

Lemma StronglySorted_impl_in {A} (R R' : A -> A -> Prop) l :
  (forall a b, In a l -> In b l -> R a b -> R' a b) ->
  StronglySorted R l -> StronglySorted R' l.
Proof.
  intros Himp Hs. induction Hs as [|x l Hs IH Hx]; constructor.
  - apply IH. intros a b Ha Hb. apply Himp; right; assumption.
  - rewrite List.Forall_forall in *. intros y Hy.
    apply Himp; [left; reflexivity | right; exact Hy | apply Hx, Hy].
Qed.

(** A FragPipe export with two proteins, as [readlines()] returns it. *)
Definition raw_header : string :=
  tsv ["Protein.Group"; "Protein.Ids"; "Protein.Names"; "Genes";
       "First.Protein.Description"; "S_1_1"; "S_1_2"; "S_1_3"].
Definition raw_lines : list string :=
  [ raw_header;
    tsv ["SPO0002"; "SPO0002"; "n2"; "g2"; "d2"; "10.5"; "11"; "12"];
    tsv ["SPO0001"; "SPO0001"; "n1"; "g1"; "d1"; "7"; "8"; "9"] ].
Definition formatted_lines : list string :=
  [ fixed_header;
    tsv ["SPO0001"; "SPO0001"; "7"; "8"; "9"];
    tsv ["SPO0002"; "SPO0002"; "10.5"; "11"; "12"] ].

(** C6, as stated, fails on the header line: the export [raw_lines] has a
    header of 8 columns and is written out as [formatted_lines], whose
    header holds the five fixed names and not columns 1, 2, 6, 7 and 8 of
    the input header. *)
Lemma reformatter_renames_header :
  length (fields raw_header) = 8 /\
  format_file raw_lines = Written formatted_lines /\
  fields (hd "" formatted_lines) = ["Accession Number"; "Annotation"; "1"; "2"; "3"] /\
  columns_1_2_6_7_8 (fields raw_header)
    = ["Protein.Group"; "Protein.Ids"; "S_1_1"; "S_1_2"; "S_1_3"] /\
  fields (hd "" formatted_lines) <> columns_1_2_6_7_8 (fields raw_header).
Proof.
  repeat split; try (vm_compute; reflexivity).
  vm_compute. discriminate.
Qed.

(** The data rows are stripped before they are cut: a row that starts with
    an empty field loses it, and its columns move one place to the left. *)
Example row_with_leading_tab_is_shifted :
  let row := tsv [""; "SPO0001"; "n1"; "g1"; "d1"; "7"; "8"; "9"] in
  columns_1_2_6_7_8 (fields row) = [""; "SPO0001"; "7"; "8"; "9"] /\
  fields (format_row row) = ["SPO0001"; "n1"; "8"; "9"; ""].
Proof. split; vm_compute; reflexivity. Qed.

(** So is the header: one that ends in an empty ninth column is taken for a
    header of 8 columns, and the file is written. *)
Example header_with_trailing_tab_is_written :
  let header := tsv ["Protein.Group"; "Protein.Ids"; "Protein.Names"; "Genes";
                     "First.Protein.Description"; "S_1_1"; "S_1_2"; "S_1_3"; ""] in
  length (fields header) = 9 /\
  format_file [header] = Written [fixed_header].
Proof. split; vm_compute; reflexivity. Qed.

(** C6 (amended): the reformatter strips white space from the two ends of
    every line before it cuts the line at its tabs.  When the stripped
    header has exactly 8 columns it writes a file whose every line has
    exactly 5 tab-separated fields: first the fixed header
    [Accession Number, Annotation, 1, 2, 3], then one line for each input
    data row, holding columns 1, 2, 6, 7 and 8 of the stripped row (an
    absent column as the empty string); these are the row's own columns 1,
    2, 6, 7 and 8 whenever stripping leaves those columns as they are, which
    it does when it removes nothing from the row but its terminator and tabs
    before it (empty fields at the end of the row).  When the stripped
    header has any other width the file is skipped.  The stripped header is
    as wide as the header itself whenever stripping removes no tab from
    it. *)
Theorem reformatter_fixed_layout (first : string) (rest : list string) :
  (length (split TAB (strip first)) = 8 ->
     exists data rows,
       format_file (first :: rest) = Written (fixed_header :: data) /\
       fields fixed_header = ["Accession Number"; "Annotation"; "1"; "2"; "3"] /\
       Forall (fun o => length (fields o) = 5) (fixed_header :: data) /\
       Permutation rest rows /\
       Forall2 (fun l o =>
                  fields o = columns_1_2_6_7_8 (split TAB (strip l)) /\
                  (strip_keeps_columns l -> fields o = columns_1_2_6_7_8 (fields l)))
               rows data)
  /\ (length (split TAB (strip first)) <> 8 -> format_file (first :: rest) = Skipped)
  /\ (forall l, trailing_tabs_only l -> strip_keeps_columns l)
  /\ (strips_no_tab first -> length (split TAB (strip first)) = length (fields first)).
Proof.
  split; [|split; [|split]].
  - intros H8.
    pose proof (sorted_perm sort_key (List.map format_row rest)) as Hperm.
    destruct (Permutation_map_inv _ _ Hperm) as (rows & Hdata & Hrows).
    exists (sorted sort_key (List.map format_row rest)), rows.
    split; [apply format_file_eight, H8|].
    split; [reflexivity|].
    rewrite Hdata. split; [|split; [exact Hrows|]].
    + constructor; [reflexivity|].
      rewrite List.Forall_forall. intros o Ho.
      apply in_map_iff in Ho as (l & <- & _).
      rewrite fields_format_row. reflexivity.
    + clear. induction rows as [|l rows IH]; simpl; constructor; [|exact IH].
      split; [apply fields_format_row|].
      intros Hkeeps. rewrite fields_format_row. exact Hkeeps.
  - apply format_file_not_eight.
  - exact trailing_tabs_columns.
  - apply strips_no_tab_width.
Qed.

(** An export in which the last replicate of one protein is missing. *)
Definition missing_last : string :=
  tsv ["SPO0003"; "SPO0003"; "n3"; "g3"; "d3"; "4"; "5"; ""].
Definition raw_lines_gap : list string :=
  [ raw_header;
    missing_last;
    tsv ["SPO0001"; "SPO0001"; "n1"; "g1"; "d1"; "7"; "8"; "9"] ].

Lemma Forall2_in_l {A B} (R R' : A -> B -> Prop) (l : list A) (l' : list B) :
  (forall a b, In a l -> R a b -> R' a b) -> Forall2 R l l' -> Forall2 R' l l'.
Proof.
  intros Himp H. induction H as [|a b l l' Hab _ IH]; constructor.
  - apply Himp; [left; reflexivity | exact Hab].
  - apply IH. intros x y Hx. apply Himp. right. exact Hx.
Qed.

Lemma reformatter_fixed_layout_witness :
  length (fields raw_header) = 8 /\
  fields missing_last = ["SPO0003"; "SPO0003"; "n3"; "g3"; "d3"; "4"; "5"; ""] /\
  exists data rows,
    format_file raw_lines_gap = Written (fixed_header :: data) /\
    Forall (fun o => length (fields o) = 5) (fixed_header :: data) /\
    Permutation (tl raw_lines_gap) rows /\
    Forall2 (fun l o => fields o = columns_1_2_6_7_8 (fields l)) rows data.
Proof.
  split; [vm_compute; reflexivity|]. split; [vm_compute; reflexivity|].
  destruct (reformatter_fixed_layout raw_header (tl raw_lines_gap))
    as (Hwritten & _ & Htabs & _).
  destruct Hwritten as (data & rows & Hfile & _ & Hfive & Hperm & Hrows);
    [vm_compute; reflexivity|].
  exists data, rows. split; [exact Hfile|]. split; [exact Hfive|].
  split; [exact Hperm|].
  refine (Forall2_in_l _ _ _ _ _ Hrows). intros l o Hl [_ Hcols].
  apply Hcols, Htabs.
  apply (Permutation_in _ (Permutation_sym Hperm)) in Hl.
  destruct Hl as [<-|[<-|[]]].
  - exists 1. vm_compute. reflexivity.
  - exists 0. vm_compute. reflexivity.
Defined.

(** C8: whenever the reformatter writes a file, its first line is the header
    and the lines after it are the reformatted input data rows, rearranged
    (a permutation) into ascending lexicographic order of their first
    field. *)
Theorem reformatter_sorts_data_rows (lines out : list string) :
  format_file lines = Written out ->
  exists data,
    out = fixed_header :: data /\
    StronglySorted
      (fun a b => String.leb (first_field a) (first_field b) = true) data /\
    Permutation data (List.map format_row (tl lines)).
Proof.
  destruct lines as [|first rest]; [discriminate|].
  destruct (Nat.eq_dec (length (split TAB (strip first))) 8) as [H8|H8].
  - rewrite (format_file_eight _ _ H8). intros [= <-].
    pose proof (sorted_perm sort_key (List.map format_row rest)) as Hperm.
    exists (sorted sort_key (List.map format_row rest)).
    split; [reflexivity|]. split; [|exact Hperm].
    apply (StronglySorted_impl_in (key_le sort_key)); [|apply sorted_sorted].
    intros a b Ha Hb. unfold key_le.
    apply (Permutation_in _ Hperm), in_map_iff in Ha as (la & <- & _).
    apply (Permutation_in _ Hperm), in_map_iff in Hb as (lb & <- & _).
    rewrite !sort_key_format_row. trivial.
  - rewrite (format_file_not_eight _ _ H8). discriminate.
Qed.

Lemma reformatter_sorts_data_rows_witness :
  exists data,
    formatted_lines = fixed_header :: data /\
    StronglySorted
      (fun a b => String.leb (first_field a) (first_field b) = true) data /\
    Permutation data (List.map format_row (tl raw_lines)).
Proof.
  apply (reformatter_sorts_data_rows raw_lines formatted_lines).
  vm_compute. reflexivity.
Defined.

End Reformatter.

(** ** The statistics stage *)

Section StatisticsStage.
Import Py Statistics.
Context {L : Libraries}.

(** The rows of the merged frame that pass [valid_row], with their index
    labels (their positions in the merged frame). *)
Definition retained (merged : list MergedRow) : list (nat * MergedRow) :=
  List.filter (fun p => valid_row (snd p)) (combine (seq 0 (length merged)) merged).

(** The retained rows after [fillna(0)]: the rows every statistic is
    computed from. *)
Definition filled (merged : list MergedRow) : list MergedRow :=
  List.map (fun p => fillna_row (snd p)) (retained merged).

(** A row average as [calculate_log2_fold_change] uses it. *)
Definition nonzero (x : float) : float := if PrimFloat.eqb x 0 then small else x.

(** What is left of a logarithm after [.replace([inf, -inf], nan).dropna()]
    and the assignment back to the frame. *)
Definition finite_or_nan (x : float) : float :=
  if PrimFloat.is_infinity x || PrimFloat.is_nan x then nan else x.

(** The frame [process_files] exports when it reaches [to_csv]. *)
Definition exported_frame (suf_1 suf_2 : string) (merged : list MergedRow)
    (adj : list float) : DataFrame :=
  let rows := filled merged in
  {| df_index := List.map fst (retained merged);
     df_columns :=
       [ ("Accession Number", Objects (List.map (fun r => CStr (Accession_Number r)) rows));
         ("Annotation" ++ suf_1, Objects (List.map Annotation_1 rows));
         ("1_" ++ suf_1, Floats (List.map rep1_1 rows));
         ("2_" ++ suf_1, Floats (List.map rep2_1 rows));
         ("3_" ++ suf_1, Floats (List.map rep3_1 rows));
         ("Annotation" ++ suf_2, Objects (List.map Annotation_2 rows));
         ("1_" ++ suf_2, Floats (List.map rep1_2 rows));
         ("2_" ++ suf_2, Floats (List.map rep2_2 rows));
         ("3_" ++ suf_2, Floats (List.map rep3_2 rows));
         ("Present_Only_In",
          Objects (List.map (fun r => CStr (presence_annotation suf_1 suf_2 r)) rows));
         ("Row_Average_" ++ suf_1,
          Floats (List.map (fun r => nonzero (row_mean (group1 r))) rows));
         ("STD_" ++ suf_1, Floats (List.map (fun r => pd_std (group1 r)) rows));
         ("Row_Average_" ++ suf_2,
          Floats (List.map (fun r => nonzero (row_mean (group2 r))) rows));
         ("STD_" ++ suf_2, Floats (List.map (fun r => pd_std (group2 r)) rows));
         ("Log2_Fold_Change",
          Floats (List.map
                    (fun r => finite_or_nan
                                (np_log2 (nonzero (row_mean (group1 r))
                                          / nonzero (row_mean (group2 r)))))
                    rows));
         ("Adj_P_Values", Floats adj);
         ("-log10(Adj_P_Values)", Floats (List.map neg_log10 adj));
         ("Log10_Adj_P_Values", Floats (List.map neg_log10 adj)) ] |}.

(** *** Index labels *)

Lemma NoDup_fst_combine {A} (l1 : list nat) (l2 : list A) :
  List.NoDup l1 -> List.NoDup (List.map fst (combine l1 l2)).
Proof.
  intros H. revert l2. induction H as [|x l1 Hx _ IH]; intros [|y l2]; simpl;
    try constructor.
  - intros Hin. apply in_map_iff in Hin as ([a b] & <- & Hin).
    apply in_combine_l in Hin. exact (Hx Hin).
  - apply IH.
Qed.

Lemma NoDup_fst_filter {A} (f : nat * A -> bool) (l : list (nat * A)) :
  List.NoDup (List.map fst l) -> List.NoDup (List.map fst (List.filter f l)).
Proof.
  induction l as [|p l IH]; simpl; intros H; [constructor|].
  inversion H as [|? ? Hp Hl]; subst.
  destruct (f p); simpl; [constructor|]; auto.
  intros Hin. apply Hp. apply in_map_iff in Hin as (q & <- & Hq).
  apply filter_In in Hq as [Hq _]. apply in_map, Hq.
Qed.

Lemma retained_NoDup merged : List.NoDup (List.map fst (retained merged)).
Proof. apply NoDup_fst_filter, NoDup_fst_combine, seq_NoDup. Qed.

Lemma in_combine_seq {A} (l : list A) : forall start i x,
  In (i, x) (combine (seq start (length l)) l) <->
  (start <= i /\ nth_error l (i - start) = Some x).
Proof.
  induction l as [|y l IH]; intros start i x; simpl.
  - split; [tauto|]. intros [_ H]. destruct (i - start); discriminate.
  - rewrite IH. split.
    + intros [[= <- <-]|[Hle Hnth]].
      * rewrite Nat.sub_diag. auto.
      * split; [lia|]. replace (i - start) with (S (i - S start)) by lia. exact Hnth.
    + intros [Hle Hnth]. destruct (i - start) as [|k] eqn:E.
      * left. injection Hnth as <-. f_equal. lia.
      * right. split; [lia|]. replace (i - S start) with k by lia. exact Hnth.
Qed.

(** A row is retained exactly when it passes [valid_row]. *)
Lemma in_retained merged i row :
  In (i, row) (retained merged) <-> (nth_error merged i = Some row /\ valid_row row = true).
Proof.
  unfold retained. rewrite filter_In, in_combine_seq, Nat.sub_0_r. simpl.
  intuition lia.
Qed.

Lemma retained_label merged i row :
  nth_error merged i = Some row ->
  In i (List.map fst (retained merged)) <-> valid_row row = true.
Proof.
  intros Hnth. split.
  - intros Hin. apply in_map_iff in Hin as ([j r] & <- & Hin).
    apply in_retained in Hin as [Hj Hv]. simpl in Hnth. congruence.
  - intros Hv. apply in_map_iff. exists (i, row). split; [reflexivity|].
    apply in_retained. auto.
Qed.

Lemma snd_filter_combine {A} (f : A -> bool) (l : list A) : forall start,
  List.map snd (List.filter (fun p => f (snd p)) (combine (seq start (length l)) l))
  = List.filter f l.
Proof.
  induction l as [|x l IH]; intros start; simpl; [reflexivity|].
  destruct (f x); simpl; rewrite IH; reflexivity.
Qed.

Lemma retained_rows merged :
  List.map snd (retained merged) = List.filter valid_row merged.
Proof. apply snd_filter_combine. Qed.

(** No row is retained exactly when no row passes [valid_row]. *)
Lemma retained_empty merged :
  (length (retained merged) =? 0)%nat = negb (existsb valid_row merged).
Proof.
  rewrite <- (length_map snd), retained_rows.
  induction merged as [|row merged IH]; simpl; [reflexivity|].
  destruct (valid_row row); [reflexivity | exact IH].
Qed.

(** *** The fold-change column *)

Lemma replace_zero_nonzero col :
  (if existsb (fun x => PrimFloat.eqb x 0) col then replace_zero col else col)
  = List.map nonzero col.
Proof.
  destruct (existsb _ col) eqn:E; [reflexivity|].
  induction col as [|x col IH]; [reflexivity|].
  simpl in E. apply orb_false_iff in E as [Ex Ecol].
  simpl. unfold nonzero at 1. rewrite Ex, <- (IH Ecol). reflexivity.
Qed.

Lemma series_lookup_notin label (s : Series) :
  ~ In label (List.map fst s) -> series_lookup label s = None.
Proof.
  unfold series_lookup. induction s as [|[i x] s IH]; simpl; [reflexivity|].
  intros Hnot. destruct (Nat.eqb_spec i label) as [->|Hne]; [tauto|].
  apply IH. tauto.
Qed.

Lemma align_dropna index : forall xs,
  List.NoDup index -> length xs = length index ->
  align index (List.filter (fun p => negb (PrimFloat.is_nan (snd p))) (combine index xs))
  = List.map (fun x => if PrimFloat.is_nan x then nan else x) xs.
Proof.
  induction index as [|i index IH]; intros [|x xs] Hnd Hlen;
    try discriminate Hlen; [reflexivity|].
  inversion Hnd as [|? ? Hi Hnd']; subst. injection Hlen as Hlen.
  specialize (IH xs Hnd' Hlen).
  set (s := List.filter _ (combine index xs)) in *.
  assert (Hs : ~ In i (List.map fst s)).
  { intros Hin. apply in_map_iff in Hin as ([j y] & <- & Hin).
    apply filter_In in Hin as [Hin _]. apply in_combine_l in Hin. exact (Hi Hin). }
  simpl combine. simpl List.filter. fold s.
  destruct (PrimFloat.is_nan x) eqn:Ex; simpl negb; cbv iota.
  - unfold align in *. simpl List.map. rewrite Ex, (series_lookup_notin _ _ Hs), IH.
    reflexivity.
  - unfold align in *. simpl List.map. rewrite Ex. f_equal.
    + unfold series_lookup. simpl. rewrite Nat.eqb_refl. reflexivity.
    + rewrite <- IH. apply map_ext_in. intros j Hj.
      unfold series_lookup. simpl.
      destruct (Nat.eqb_spec i j) as [->|_]; [contradiction|reflexivity].
Qed.

Lemma finite_or_nan_spec x :
  (if PrimFloat.is_nan (replace_inf x) then nan else replace_inf x) = finite_or_nan x.
Proof.
  unfold replace_inf, finite_or_nan.
  destruct (PrimFloat.is_infinity x); simpl.
  - destruct (PrimFloat.is_nan nan); reflexivity.
  - reflexivity.
Qed.

Lemma combine_map_map {A B C} (f : A -> B) (g : A -> C) (l : list A) :
  combine (List.map f l) (List.map g l) = List.map (fun x => (f x, g x)) l.
Proof. induction l as [|x l IH]; simpl; [reflexivity | rewrite IH; reflexivity]. Qed.

Lemma calculate_log2_fold_change_spec index (rows : list MergedRow)
    (f g : MergedRow -> float) :
  List.NoDup index -> length index = length rows ->
  calculate_log2_fold_change index (List.map f rows) (List.map g rows)
  = (List.map (fun r => nonzero (f r)) rows,
     List.map (fun r => nonzero (g r)) rows,
     snd (calculate_log2_fold_change index (List.map f rows) (List.map g rows)))
  /\ align index (snd (calculate_log2_fold_change index (List.map f rows) (List.map g rows)))
     = List.map (fun r => finite_or_nan (np_log2 (nonzero (f r) / nonzero (g r)))) rows.
Proof.
  intros Hnd Hlen. unfold calculate_log2_fold_change.
  rewrite !replace_zero_nonzero, !List.map_map. split; [reflexivity|].
  simpl snd. rewrite combine_map_map, !List.map_map. simpl.
  rewrite align_dropna; [|exact Hnd|rewrite length_map; symmetry; exact Hlen].
  rewrite List.map_map. apply map_ext. intros r. apply finite_or_nan_spec.
Qed.

(** *** What [process_files] returns *)

Lemma correction_neglog (p : list float) method :
  snd (snd (multiple_testing_correction p method))
  = List.map neg_log10 (fst (snd (multiple_testing_correction p method))).
Proof.
  unfold multiple_testing_correction.
  destruct (String.eqb method "None"); [reflexivity|].
  destruct (negb _); reflexivity.
Qed.

Lemma process_files_cases suf_1 suf_2 merged test_name correction_method :
  process_files suf_1 suf_2 merged test_name correction_method
  = if String.eqb suf_1 suf_2 && negb (length merged =? 0)%nat
    then Raised (KeyError ("1_" ++ suf_1))
    else if negb (existsb valid_row merged) then Raised ValueError
    else if String.eqb correction_method "None" then Raised (KeyError "P_Values")
    else
      let raw := calculate_pvalues (filled merged) (get_test_function test_name) in
      let adj := fst (snd (multiple_testing_correction raw correction_method)) in
      if (length adj =? length (retained merged))%nat
      then Exported (exported_frame suf_1 suf_2 merged adj)
      else Raised ValueError.
Proof.
  unfold process_files.
  destruct (String.eqb suf_1 suf_2 && negb (length merged =? 0)%nat); [reflexivity|].
  fold (retained merged). fold (filled merged).
  assert ((length (filled merged) =? 0)%nat = negb (existsb valid_row merged)) as ->
    by (unfold filled; rewrite length_map; apply retained_empty).
  destruct (negb (existsb valid_row merged)); [reflexivity|].
  destruct (calculate_log2_fold_change_spec
              (List.map fst (retained merged)) (filled merged)
              (fun r => row_mean (group1 r)) (fun r => row_mean (group2 r))
              (retained_NoDup merged)) as [Hcalc Halign].
  { unfold filled. rewrite !length_map. reflexivity. }
  rewrite Hcalc, Halign.
  destruct (String.eqb correction_method "None") eqn:Enone; simpl negb; cbv iota.
  - unfold calculate_pvalues, filled. rewrite !length_map, Nat.eqb_refl.
    reflexivity.
  - pose proof (correction_neglog
                  (calculate_pvalues (filled merged) (get_test_function test_name))
                  correction_method) as Hneg.
    destruct (snd (multiple_testing_correction _ correction_method)) as [adj neglog].
    simpl in Hneg. subst neglog. simpl fst. rewrite length_map.
    destruct (length adj =? length (retained merged))%nat; [|reflexivity].
    unfold exported_frame. rewrite !List.map_map. reflexivity.
Qed.

(** The stage fails before any statistic is computed when the two suffixes
    collide on a frame with rows, and when no row passes [valid_row]. *)
Lemma process_files_guards suf_1 suf_2 merged :
  suf_1 <> suf_2 -> existsb valid_row merged = true ->
  (String.eqb suf_1 suf_2 && negb (length merged =? 0)%nat)%bool = false /\
  negb (existsb valid_row merged) = false.
Proof.
  intros Hne Hrow. apply String.eqb_neq in Hne. rewrite Hne, Hrow. auto.
Qed.

(** C3: without a correction method the stage never reaches the export,
    whatever the two files hold.  On its regular path (two distinct
    suffixes, some row passing [valid_row]) the last step reads a column
    [P_Values] that no step created; on a merged frame without rows the
    assignment of [Present_Only_In] fails before that. *)
Theorem process_files_without_correction_raises suf_1 suf_2 merged test_name :
  (forall df, process_files suf_1 suf_2 merged test_name "None" <> Exported df)
  /\ (suf_1 <> suf_2 -> existsb valid_row merged = true ->
      process_files suf_1 suf_2 merged test_name "None" = Raised (KeyError "P_Values"))
  /\ (merged = [] ->
      process_files suf_1 suf_2 merged test_name "None" = Raised ValueError).
Proof.
  rewrite process_files_cases. split; [|split].
  - intros df. destruct (_ && _); [discriminate|].
    destruct (negb _); discriminate.
  - intros Hne Hrow. destruct (process_files_guards _ _ _ Hne Hrow) as [-> ->].
    reflexivity.
  - intros ->. simpl. rewrite andb_false_r. reflexivity.
Qed.

Lemma exported_inv suf_1 suf_2 merged test_name correction_method df :
  process_files suf_1 suf_2 merged test_name correction_method = Exported df ->
  df = exported_frame suf_1 suf_2 merged
         (fst (snd (multiple_testing_correction
                      (calculate_pvalues (filled merged) (get_test_function test_name))
                      correction_method))).
Proof.
  rewrite process_files_cases.
  destruct (_ && _); [discriminate|].
  destruct (negb _); [discriminate|].
  destruct (String.eqb correction_method "None"); [discriminate|].
  cbv zeta. destruct (_ =? _)%nat; [|discriminate].
  intros [= <-]. reflexivity.
Qed.

(** An export needs two distinct suffixes and a row that passes
    [valid_row]. *)
Lemma exported_needs suf_1 suf_2 merged test_name correction_method df :
  process_files suf_1 suf_2 merged test_name correction_method = Exported df ->
  suf_1 <> suf_2 /\ existsb valid_row merged = true.
Proof.
  rewrite process_files_cases.
  destruct (String.eqb_spec suf_1 suf_2) as [->|Hne].
  - destruct merged as [|row merged]; [discriminate | discriminate].
  - simpl. destruct (existsb valid_row merged); [auto | discriminate].
Qed.

(** With two distinct suffixes, a row that passes [valid_row] and one of
    the valid methods the stage exports, and [Adj_P_Values] is what
    [multipletests] returned for the raw p-values of the retained rows. *)
Lemma process_files_with_correction suf_1 suf_2 merged test_name method :
  suf_1 <> suf_2 -> existsb valid_row merged = true ->
  In method valid_methods ->
  let raw := calculate_pvalues (filled merged) (get_test_function test_name) in
  length (multipletests raw method) = length raw ->
  process_files suf_1 suf_2 merged test_name method
    = Exported (exported_frame suf_1 suf_2 merged (multipletests raw method))
  /\ getitem "Adj_P_Values" (exported_frame suf_1 suf_2 merged (multipletests raw method))
     = inr (Floats (multipletests raw method)).
Proof.
  intros Hne Hrow Hin raw Hlen. split; [|reflexivity].
  rewrite process_files_cases. fold raw.
  destruct (process_files_guards _ _ _ Hne Hrow) as [-> ->].
  assert (Hm : multiple_testing_correction raw method
               = ([], (multipletests raw method,
                       List.map neg_log10 (multipletests raw method)))).
  { unfold multiple_testing_correction.
    simpl in Hin.
    repeat (destruct Hin as [<-|Hin]; [reflexivity|]). contradiction. }
  assert (String.eqb method "None" = false) as ->.
  { simpl in Hin.
    repeat (destruct Hin as [<-|Hin]; [reflexivity|]). contradiction. }
  cbv zeta. rewrite Hm. simpl fst. simpl snd.
  rewrite Hlen. unfold raw, calculate_pvalues, filled. rewrite !length_map.
  rewrite Nat.eqb_refl. reflexivity.
Qed.

(** *** Row validity *)

(** C1: a merged row whose two triplicates are both all zero fails
    [valid_row]; the frame the stage exports has the retained rows' labels
    as its index, every column of it (means, fold change, p-values) is
    computed from the retained rows only, and the label of such a row is not
    in it.  A row with a triplicate that is not all zero passes the all-zero
    rule, and is then judged by the NaN rule alone. *)
Theorem all_zero_rows_are_dropped
    suf_1 suf_2 merged test_name correction_method i row :
  nth_error merged i = Some row ->
  (is_all_zero (group1 row) = true -> is_all_zero (group2 row) = true ->
     valid_row row = false /\
     ~ In (i, row) (retained merged) /\
     forall df,
       process_files suf_1 suf_2 merged test_name correction_method = Exported df ->
       df = exported_frame suf_1 suf_2 merged
              (fst (snd (multiple_testing_correction
                           (calculate_pvalues (filled merged)
                                              (get_test_function test_name))
                           correction_method))) /\
       ~ In i (df_index df))
  /\ (is_all_zero (group1 row) && is_all_zero (group2 row) = false ->
      valid_row row = valid_triplicate (group1 row) && valid_triplicate (group2 row)).
Proof.
  intros Hnth. split.
  - intros H1 H2.
    assert (Hv : valid_row row = false) by (unfold valid_row; rewrite H1, H2; reflexivity).
    split; [exact Hv|]. split.
    + rewrite in_retained. intros [_ Hv']. congruence.
    + intros df Hdf. apply exported_inv in Hdf. split; [exact Hdf|].
      subst df. simpl df_index. rewrite (retained_label _ _ _ Hnth). congruence.
  - intros Hz. unfold valid_row. rewrite Hz. reflexivity.
Qed.

Lemma valid_triplicate_iff values :
  valid_triplicate values = true <-> (nan_count values = 0 \/ nan_count values = 3).
Proof.
  unfold valid_triplicate. rewrite orb_true_iff, !Nat.eqb_eq. reflexivity.
Qed.

Lemma fillna0_not_nan x : PrimFloat.is_nan (fillna0 x) = false.
Proof.
  unfold fillna0. destruct (PrimFloat.is_nan x) eqn:E; [reflexivity | exact E].
Qed.

Lemma replicate_columns suf_1 suf_2 merged adj :
  suf_1 <> suf_2 ->
  let df := exported_frame suf_1 suf_2 merged adj in
  let col rep := inr (Floats (List.map (fun p => fillna0 (rep (snd p))) (retained merged))) in
  getitem ("1_" ++ suf_1) df = col rep1_1 /\
  getitem ("2_" ++ suf_1) df = col rep2_1 /\
  getitem ("3_" ++ suf_1) df = col rep3_1 /\
  getitem ("1_" ++ suf_2) df = col rep1_2 /\
  getitem ("2_" ++ suf_2) df = col rep2_2 /\
  getitem ("3_" ++ suf_2) df = col rep3_2.
Proof.
  intros Hne df col. apply String.eqb_neq in Hne.
  unfold df, col, getitem, exported_frame, filled. simpl.
  rewrite !String.eqb_refl, Hne, !List.map_map. simpl.
  repeat split; reflexivity.
Qed.

(** A cell that holds the missing-value marker. *)
Definition cell_is_nan (c : cell) : bool :=
  match c with
  | CStr _ => false
  | CNum x => PrimFloat.is_nan x
  end.

(** A cell after [fillna(0)], written out. *)
Definition zero_for_nan (c : cell) : cell :=
  match c with
  | CStr s => CStr s
  | CNum x => CNum (if PrimFloat.is_nan x then 0%float else x)
  end.

Lemma zero_for_nan_not_nan c : cell_is_nan (zero_for_nan c) = false.
Proof.
  destruct c as [s|x]; simpl; [reflexivity|].
  destruct (PrimFloat.is_nan x) eqn:E; [reflexivity | exact E].
Qed.

Lemma annotation_columns suf_1 suf_2 merged adj :
  suf_1 <> suf_2 ->
  let df := exported_frame suf_1 suf_2 merged adj in
  let col ann := inr (Objects (List.map (fun p => zero_for_nan (ann (snd p)))
                                        (retained merged))) in
  getitem ("Annotation" ++ suf_1) df = col Annotation_1 /\
  getitem ("Annotation" ++ suf_2) df = col Annotation_2 /\
  getitem "Accession Number" df
    = inr (Objects (List.map (fun p => CStr (Accession_Number (snd p))) (retained merged))).
Proof.
  intros Hne df col. apply String.eqb_neq in Hne.
  unfold df, col, getitem, exported_frame, filled. simpl.
  rewrite !String.eqb_refl, Hne, !List.map_map. simpl.
  repeat split; f_equal; f_equal; apply map_ext; intros [i r]; simpl;
    destruct (Annotation_1 r), (Annotation_2 r); reflexivity.
Qed.

(** C9: a triplicate is accepted exactly when it holds 0 or 3 NaN values; a
    merged row one of whose triplicates holds exactly 1 or exactly 2 NaN
    values fails [valid_row] and its label is not in the exported frame; and
    [fillna(0)] covers the whole filtered frame: in the exported frame the
    six replicate columns hold the retained values with every NaN replaced
    by 0, the two annotation columns hold the retained annotations with
    every NaN (the annotation of a protein the other file lacks) replaced
    by 0, the accession column holds the retained accessions, and none of
    these nine columns holds a NaN. *)
Theorem partial_triplicates_are_dropped
    suf_1 suf_2 merged test_name correction_method i row :
  nth_error merged i = Some row ->
  (forall values,
     valid_triplicate values = true <-> (nan_count values = 0 \/ nan_count values = 3))
  /\ ((nan_count (group1 row) = 1 \/ nan_count (group1 row) = 2 \/
       nan_count (group2 row) = 1 \/ nan_count (group2 row) = 2) ->
      valid_row row = false /\
      forall df,
        process_files suf_1 suf_2 merged test_name correction_method = Exported df ->
        ~ In i (df_index df))
  /\ (forall df,
        process_files suf_1 suf_2 merged test_name correction_method = Exported df ->
        (forall name rep,
           In (name, rep)
              [ ("1_" ++ suf_1, rep1_1); ("2_" ++ suf_1, rep2_1); ("3_" ++ suf_1, rep3_1);
                ("1_" ++ suf_2, rep1_2); ("2_" ++ suf_2, rep2_2); ("3_" ++ suf_2, rep3_2) ] ->
           exists values,
             getitem name df = inr (Floats values) /\
             values = List.map (fun p => if PrimFloat.is_nan (rep (snd p)) then 0%float
                                         else rep (snd p))
                               (retained merged) /\
             Forall (fun v => PrimFloat.is_nan v = false) values)
        /\ (forall name ann,
              In (name, ann)
                 [ ("Annotation" ++ suf_1, Annotation_1);
                   ("Annotation" ++ suf_2, Annotation_2) ] ->
              exists cells,
                getitem name df = inr (Objects cells) /\
                cells = List.map (fun p => match ann (snd p) with
                                           | CStr s => CStr s
                                           | CNum x =>
                                               CNum (if PrimFloat.is_nan x then 0%float
                                                     else x)
                                           end)
                                 (retained merged) /\
                Forall (fun c => cell_is_nan c = false) cells)
        /\ getitem "Accession Number" df
           = inr (Objects (List.map (fun p => CStr (Accession_Number (snd p)))
                                    (retained merged)))).
Proof.
  intros Hnth. split; [exact valid_triplicate_iff|]. split.
  - intros Hpartial.
    assert (Hv : valid_row row = false).
    { unfold valid_row. destruct (_ && _); [reflexivity|].
      apply andb_false_iff. unfold valid_triplicate.
      destruct Hpartial as [H|[H|[H|H]]]; rewrite H; simpl; auto. }
    split; [exact Hv|]. intros df Hdf. apply exported_inv in Hdf. subst df.
    simpl df_index. rewrite (retained_label _ _ _ Hnth). congruence.
  - intros df Hdf. destruct (exported_needs _ _ _ _ _ _ Hdf) as [Hne _].
    apply exported_inv in Hdf. subst df.
    split; [|split].
    + intros name rep Hin.
      destruct (replicate_columns suf_1 suf_2 merged
                  (fst (snd (multiple_testing_correction
                               (calculate_pvalues (filled merged)
                                                  (get_test_function test_name))
                               correction_method))) Hne)
        as (H1 & H2 & H3 & H4 & H5 & H6).
      eexists. split; [|split; [reflexivity|]].
      * simpl in Hin.
        destruct Hin
          as [[= <- <-]|[[= <- <-]|[[= <- <-]|[[= <- <-]|[[= <- <-]|[[= <- <-]|[]]]]]]];
          assumption.
      * rewrite List.Forall_forall. intros v Hv.
        apply in_map_iff in Hv as (q & <- & _). apply fillna0_not_nan.
    + intros name ann Hin.
      destruct (annotation_columns suf_1 suf_2 merged
                  (fst (snd (multiple_testing_correction
                               (calculate_pvalues (filled merged)
                                                  (get_test_function test_name))
                               correction_method))) Hne)
        as (H1 & H2 & _).
      exists (List.map (fun p => zero_for_nan (ann (snd p))) (retained merged)).
      split; [|split; [reflexivity|]].
      * simpl in Hin. destruct Hin as [[= <- <-]|[[= <- <-]|[]]]; assumption.
      * rewrite List.Forall_forall. intros c Hc.
        apply in_map_iff in Hc as (q & <- & _). apply zero_for_nan_not_nan.
    + apply (annotation_columns suf_1 suf_2 merged _ Hne).
Qed.

(** *** Fold change *)

Lemma nonzero_not_zero x : PrimFloat.eqb (nonzero x) 0 = false.
Proof.
  unfold nonzero. destruct (PrimFloat.eqb x 0) eqn:E; [reflexivity | exact E].
Qed.

Lemma log2_fold_change_column suf_1 suf_2 merged adj :
  getitem "Log2_Fold_Change" (exported_frame suf_1 suf_2 merged adj)
  = inr (Floats (List.map
                   (fun r => finite_or_nan
                               (np_log2 (nonzero (row_mean (group1 r))
                                         / nonzero (row_mean (group2 r)))))
                   (filled merged))).
Proof. reflexivity. Qed.

(** [fold_change_of r fc]: [fc] is the fold change of the row [r] as the
    amended C2 states it. *)
Definition fold_change_of (r : MergedRow) (fc : float) : Prop :=
  let a1 := nonzero ((rep1_1 r + rep2_1 r + rep3_1 r) / 3) in
  let a2 := nonzero ((rep1_2 r + rep2_2 r + rep3_2 r) / 3) in
  PrimFloat.eqb a1 0 = false /\ PrimFloat.eqb a2 0 = false /\
  (PrimFloat.is_infinity (np_log2 (a1 / a2)) = false ->
   PrimFloat.is_nan (np_log2 (a1 / a2)) = false ->
   fc = np_log2 (a1 / a2)) /\
  (PrimFloat.is_infinity (np_log2 (a1 / a2)) = true \/
   PrimFloat.is_nan (np_log2 (a1 / a2)) = true ->
   fc = nan).

(** C2 (amended): in the exported frame, [Log2_Fold_Change] of every
    retained row is [log2 (a1 / a2)] whenever that logarithm is finite, and
    NaN when it is infinite or NaN; [a1] and [a2] are the means of the row's
    two triplicates with a mean equal to zero replaced by the literal
    [10E-15] (that is 1e-14), so neither the numerator nor the denominator of
    the ratio is zero. *)
Theorem log2_fold_change_formula
    suf_1 suf_2 merged test_name correction_method df :
  process_files suf_1 suf_2 merged test_name correction_method = Exported df ->
  (exists column,
     getitem "Log2_Fold_Change" df = inr (Floats column) /\
     Forall2 fold_change_of (filled merged) column)
  /\ (forall x, nonzero x = if PrimFloat.eqb x 0 then 1e-14 else x)%float.
Proof.
  intros Hdf. apply exported_inv in Hdf. subst df. split; [|reflexivity].
  eexists. split; [apply log2_fold_change_column|].
  induction (filled merged) as [|r rows IH]; simpl; constructor; [|exact IH].
  unfold fold_change_of. cbv zeta.
  change (row_mean (group1 r)) with ((rep1_1 r + rep2_1 r + rep3_1 r) / 3)%float.
  change (row_mean (group2 r)) with ((rep1_2 r + rep2_2 r + rep3_2 r) / 3)%float.
  split; [apply nonzero_not_zero|]. split; [apply nonzero_not_zero|].
  unfold finite_or_nan. split.
  - intros -> ->. reflexivity.
  - intros [-> | ->]; [reflexivity | rewrite orb_true_r; reflexivity].
Qed.

(** *** Fallbacks *)

Lemma invalid_method_rejected method :
  ~ In method valid_methods -> existsb (String.eqb method) valid_methods = false.
Proof.
  intros Hnot. destruct (existsb _ _) eqn:E; [|reflexivity].
  apply existsb_exists in E as (m & Hin & Heq).
  apply String.eqb_eq in Heq. subst m. contradiction.
Qed.

(** C4 (amended): a correction method that is neither ['None'] nor one of
    the five valid names makes [multiple_testing_correction] print its
    warning and return the raw p-values with their [-log10]; a test name
    whose lower-case form is not a key of the mapping makes
    [get_test_function] return [ttest_ind]. *)
Theorem invalid_choices_fall_back
    (p_values : list float) (method test_name : string) :
  (method <> "None" -> ~ In method valid_methods ->
     multiple_testing_correction p_values method
     = (["Invalid correction method '" ++ method ++ "', using 'None' by default."],
        (p_values, List.map neg_log10 p_values)))
  /\ (~ In (lower test_name)
           ["t-test"; "welch"; "mannwhitneyu"; "wilcoxon"; "kruskal"; "f_oneway"] ->
      get_test_function test_name = F_ttest_ind).
Proof.
  split.
  - intros Hnone Hinvalid. unfold multiple_testing_correction.
    apply String.eqb_neq in Hnone. rewrite Hnone.
    rewrite (invalid_method_rejected _ Hinvalid). reflexivity.
  - intros Hkey. unfold get_test_function, test_mapping.
    rewrite (not_elem_of_list_to_map_1 _ (lower test_name)); [reflexivity|].
    rewrite list_elem_of_In. exact Hkey.
Qed.

End StatisticsStage.

(** *** The stage on concrete frames *)

Section StatisticsExamples.
Import Py Statistics.

(** Stand-ins for the library routines, to run the model on concrete
    frames: every test reports the p-value 0.5, the correction and the
    logarithms return their argument, the deviation is 0. *)
Definition stand_in : Libraries :=
  {| np_log2 := fun x => x;
     np_log10 := fun x => x;
     ttest_ind := fun _ _ _ => Some 0.5%float;
     mannwhitneyu := fun _ _ => Some 0.5%float;
     wilcoxon := fun _ _ => Some 0.5%float;
     kruskal := fun _ _ => Some 0.5%float;
     f_oneway := fun _ _ => Some 0.5%float;
     multipletests := fun p _ => p;
     pd_std := fun _ => 0%float |}.

Definition merged_row (accession : string) (a1 b1 c1 a2 b2 c2 : float) : MergedRow :=
  {| Accession_Number := accession;
     Annotation_1 := CStr "protein"; rep1_1 := a1; rep2_1 := b1; rep3_1 := c1;
     Annotation_2 := CStr "protein"; rep1_2 := a2; rep2_2 := b2; rep3_2 := c2 |}.

(** An all-zero row, a complete row, a row with one missing replicate, and
    a row found in the first file only. *)
Definition zero_row : MergedRow := merged_row "SPO0001" 0 0 0 0 0 0.
Definition full_row : MergedRow := merged_row "SPO0002" 10 12 11 5 6 7.
Definition partial_row : MergedRow := merged_row "SPO0003" 1 nan 3 1 2 3.
Definition single_row : MergedRow := merged_row "SPO0004" 4 5 6 nan nan nan.
Definition sample_merged : list MergedRow := [zero_row; full_row; partial_row; single_row].

(** A row whose first mean is 1e300 and whose second triplicate is zero. *)
Definition overflow_row : MergedRow := merged_row "SPO0005" 1e300 1e300 1e300 0 0 0.

Lemma all_zero_rows_are_dropped_witness :
  valid_row zero_row = false /\
  ~ In (0, zero_row) (retained sample_merged) /\
  valid_row full_row = valid_triplicate (group1 full_row) && valid_triplicate (group2 full_row).
Proof.
  destruct (all_zero_rows_are_dropped (L := stand_in)
              "M1" "M2" sample_merged "t-test" "fdr_bh" 0 zero_row eq_refl) as [Hzero _].
  destruct (Hzero eq_refl eq_refl) as (Hv & Hr & _).
  destruct (all_zero_rows_are_dropped (L := stand_in)
              "M1" "M2" sample_merged "t-test" "fdr_bh" 1 full_row eq_refl) as [_ Hfull].
  split; [exact Hv|]. split; [exact Hr|]. apply Hfull. reflexivity.
Defined.

Lemma process_files_without_correction_raises_witness :
  process_files (L := stand_in) "M1" "M2" sample_merged "t-test" "None"
    = Raised (KeyError "P_Values")
  /\ process_files (L := stand_in) "M1" "M2" [] "t-test" "None" = Raised ValueError.
Proof.
  split.
  - apply (proj1 (proj2 (process_files_without_correction_raises (L := stand_in)
                           "M1" "M2" sample_merged "t-test")));
      [discriminate | reflexivity].
  - apply (proj2 (proj2 (process_files_without_correction_raises (L := stand_in)
                           "M1" "M2" [] "t-test"))).
    reflexivity.
Defined.

(** A protein the second file lacks, as the outer merge leaves it: no
    annotation and no replicate on that side. *)
Definition absent_row : MergedRow :=
  {| Accession_Number := "SPO0006";
     Annotation_1 := CStr "protein"; rep1_1 := 4; rep2_1 := 5; rep3_1 := 6;
     Annotation_2 := CNum nan; rep1_2 := nan; rep2_2 := nan; rep3_2 := nan |}.

(** A frame with a row of each kind. *)
Definition sample_absent : list MergedRow := [full_row; partial_row; absent_row].

Lemma partial_triplicates_are_dropped_witness :
  valid_row partial_row = false /\
  exists df,
    process_files (L := stand_in) "M1" "M2" sample_absent "t-test" "fdr_bh" = Exported df /\
    ~ In 1 (df_index df) /\
    getitem "1_M2" df = inr (Floats [5; 0]%float) /\
    getitem "AnnotationM2" df = inr (Objects [CStr "protein"; CNum 0]) /\
    getitem "Accession Number" df = inr (Objects [CStr "SPO0002"; CStr "SPO0006"]).
Proof.
  destruct (partial_triplicates_are_dropped (L := stand_in)
              "M1" "M2" sample_absent "t-test" "fdr_bh" 1 partial_row eq_refl)
    as (_ & Hpartial & Hfilled).
  destruct (Hpartial (or_introl eq_refl)) as [Hv Hlabel].
  split; [exact Hv|].
  assert (exists df, process_files (L := stand_in) "M1" "M2" sample_absent "t-test" "fdr_bh"
                     = Exported df) as [df Hdf].
  { eexists. vm_compute. reflexivity. }
  exists df. split; [exact Hdf|]. split; [exact (Hlabel df Hdf)|].
  destruct (Hfilled df Hdf) as (Hreps & Hanns & Hacc).
  destruct (Hreps "1_M2" rep1_2) as (values & Hcol & -> & _);
    [simpl; tauto|].
  destruct (Hanns "AnnotationM2" Annotation_2) as (cells & Hcells & -> & _);
    [simpl; tauto|].
  split; [exact Hcol|]. split; [exact Hcells | exact Hacc].
Defined.

(** The stand-in run: rows 1 and 3 are exported. *)
Example process_files_sample_index :
  exists df,
    process_files (L := stand_in) "M1" "M2" sample_merged "t-test" "fdr_bh" = Exported df /\
    df_index df = [1; 3] /\
    getitem "Row_Average_M2" df = inr (Floats [6; 1e-14]%float) /\
    getitem "Present_Only_In" df = inr (Objects [CStr "Both"; CStr "Only_M1"]).
Proof.
  eexists. split; [vm_compute; reflexivity|].
  repeat split; vm_compute; reflexivity.
Qed.

Lemma log2_fold_change_formula_witness :
  exists df column,
    process_files (L := stand_in) "M1" "M2" sample_merged "t-test" "fdr_bh" = Exported df /\
    getitem "Log2_Fold_Change" df = inr (Floats column) /\
    Forall2 (fold_change_of (L := stand_in)) (filled sample_merged) column.
Proof.
  assert (exists df, process_files (L := stand_in) "M1" "M2" sample_merged "t-test" "fdr_bh"
                     = Exported df) as [df Hdf].
  { eexists. vm_compute. reflexivity. }
  destruct (log2_fold_change_formula (L := stand_in) _ _ _ _ _ _ Hdf)
    as [(column & Hcol & Hall) _].
  exists df, column. auto.
Defined.

(** C2, as stated, fails where the ratio overflows: the row [overflow_row]
    is retained, its ratio [1e300 / 1e-14] is infinite, and for every
    logarithm that maps infinity to infinity the exported
    [Log2_Fold_Change] is NaN and not [log2] of the ratio. *)
Lemma log2_fold_change_overflow :
  valid_row overflow_row = true /\
  (nonzero (row_mean (group1 overflow_row)) / nonzero (row_mean (group2 overflow_row)))%float
    = infinity /\
  forall L : Libraries,
    np_log2 infinity = infinity ->
    let raw := calculate_pvalues (filled [overflow_row]) (get_test_function "t-test") in
    length (multipletests raw "fdr_bh") = length raw ->
    let df := exported_frame "M1" "M2" [overflow_row] (multipletests raw "fdr_bh") in
    process_files "M1" "M2" [overflow_row] "t-test" "fdr_bh" = Exported df /\
    getitem "Log2_Fold_Change" df = inr (Floats [nan]) /\
    nan <> np_log2 (nonzero (row_mean (group1 overflow_row))
                    / nonzero (row_mean (group2 overflow_row))).
Proof.
  split; [reflexivity|].
  assert (Hratio : (nonzero (row_mean (group1 overflow_row))
                    / nonzero (row_mean (group2 overflow_row)))%float = infinity)
    by (vm_compute; reflexivity).
  split; [exact Hratio|].
  intros L Hinf raw Hlen df.
  destruct (process_files_with_correction "M1" "M2" [overflow_row] "t-test" "fdr_bh")
    as [Hrun _]; [discriminate | reflexivity | simpl; tauto | exact Hlen |].
  split; [exact Hrun|]. split.
  - unfold df. rewrite log2_fold_change_column.
    change (filled [overflow_row]) with [overflow_row].
    cbv [List.map]. rewrite Hratio, Hinf. reflexivity.
  - rewrite Hratio, Hinf. intros H.
    apply (f_equal PrimFloat.is_nan) in H. vm_compute in H. discriminate.
Qed.

(** C4, as stated, fails for a test name that is no key of the mapping but
    whose lower-case form is one: ["Kruskal"] selects [kruskal], not the
    default. *)
Lemma get_test_function_ignores_case :
  test_mapping !! "Kruskal" = None /\
  get_test_function "Kruskal" = F_kruskal /\
  get_test_function "Kruskal" <> F_ttest_ind.
Proof.
  split; [vm_compute; reflexivity|].
  split; [vm_compute; reflexivity|].
  vm_compute. discriminate.
Qed.

Lemma invalid_choices_fall_back_witness :
  multiple_testing_correction (L := stand_in) [0.5; 0.01]%float "Bonferroni"
  = (["Invalid correction method 'Bonferroni', using 'None' by default."],
     ([0.5; 0.01]%float, List.map (neg_log10 (L := stand_in)) [0.5; 0.01]%float))
  /\ get_test_function "anova" = F_ttest_ind.
Proof.
  destruct (invalid_choices_fall_back (L := stand_in) [0.5; 0.01]%float "Bonferroni" "anova")
    as [Hmethod Htest].
  split.
  - apply Hmethod; [discriminate|].
    simpl. intros [H|[H|[H|[H|[H|[]]]]]]; discriminate H.
  - apply Htest.
    simpl. intros [H|[H|[H|[H|[H|[H|[]]]]]]]; discriminate H.
Defined.

End StatisticsExamples.

(** ** The annotator *)

Section Annotator.
Import Py Lines Annotate.

(** A two-column annotation file and the dictionary loaded from it. *)
Definition annotation_lines : list string :=
  [ tsv ["SPO0001"; "chaperonin GroEL"]; tsv ["SPO0002"; "ABC transporter"] ].
Definition annotations : gmap string string :=
  <["SPO0002":="ABC transporter"]> (<["SPO0001":="chaperonin GroEL"]> ∅).

Example SPO_dict_sample : SPO_dict annotation_lines = inr annotations.
Proof. vm_compute. reflexivity. Qed.

(** The annotated form of a data line with at least two fields. *)
Definition annotated (d : gmap string string) (line : string) : string :=
  tsv (<[1:=default "Unknown" (d !! hd "" (fields line))]> (fields line)).

Lemma annotate_line_clean d line :
  clean line -> 2 <= length (fields line) ->
  annotate_line d line = inr (annotated d line).
Proof.
  unfold clean, annotate_line, annotated, fields. intros -> Hlen.
  destruct (split TAB (chomp line)) as [|spo_id [|old rest]]; simpl in Hlen; try lia.
  reflexivity.
Qed.

(** X5: on a file whose data lines carry no blank or tab at either end and
    have at least two fields, the annotator writes the stripped header and
    one line per data line, in order: the line with its second field
    replaced by the dictionary's entry for its first field, or by
    ['Unknown'] when the dictionary has none. *)
Lemma annotate_file_clean d header rows :
  Forall (fun line => clean line /\ 2 <= length (fields line)) rows ->
  annotate_file d (header :: rows)
  = ((strip header ++ String LF "") :: List.map (annotated d) rows, None).
Proof.
  intros Hrows. unfold annotate_file. simpl hd. simpl tl.
  assert (H : annotate_lines d rows = (List.map (annotated d) rows, None)).
  { induction Hrows as [|line rows [Hc Hl] _ IH]; [reflexivity|].
    simpl. rewrite (annotate_line_clean _ _ Hc Hl), IH. reflexivity. }
  rewrite H. reflexivity.
Qed.

(** C7 fails on a row the reformatter itself produces: a raw row that
    holds an accession only is reformatted to the accession followed by four
    empty fields; stripping that line leaves one field, the assignment to
    [columns[1]] raises [IndexError], and no row is written for the
    accession although the dictionary has its annotation. *)
Lemma annotate_raises_on_bare_accession :
  FormatRaw.format_row (tsv ["SPO0001"]) = tsv ["SPO0001"; ""; ""; ""; ""] /\
  annotations !! "SPO0001" = Some "chaperonin GroEL" /\
  annotate_file annotations [fixed_header; tsv ["SPO0001"; ""; ""; ""; ""]]
  = ([fixed_header], Some IndexError).
Proof. repeat split; vm_compute; reflexivity. Qed.

(** C10 fails on a blank line: the reformatter turns a blank line of the
    raw file into a row of five empty fields; the annotator raises
    [IndexError] on it, so neither it nor any later row is written.  A row
    whose last field is empty loses that field. *)
Lemma annotate_stops_at_blank_row :
  FormatRaw.format_row (String LF "") = tsv [""; ""; ""; ""; ""] /\
  annotate_file annotations
    [ fixed_header; tsv [""; ""; ""; ""; ""]; tsv ["SPO0001"; "SPO0001"; "7"; "8"; "9"] ]
  = ([fixed_header], Some IndexError) /\
  annotate_line annotations (tsv ["SPO0009"; "SPO0009"; "7"; "8"; ""])
  = inr (tsv ["SPO0009"; "Unknown"; "7"; "8"]).
Proof. repeat split; vm_compute; reflexivity. Qed.

End Annotator.

(** ** The significance extractor *)

Section Extractor.
Import Py SignificantList.

(** The two thresholds of the summary. *)
Definition overexpressed (r : InputRow) : bool :=
  (2 <? pval r)%float && (2 <? log2_fc r)%float.
Definition underexpressed (r : InputRow) : bool :=
  (2 <? pval r)%float && (log2_fc r <? -2)%float.

(** The two tests that feed the zero-condition columns. *)
Definition zero_overexpressed (r : InputRow) : bool :=
  (2 <? pval r)%float && contains "Only_" (cond r) && (0 <? log2_fc r)%float.
Definition zero_underexpressed (r : InputRow) : bool :=
  (2 <? pval r)%float && contains "Only_" (cond r) && (log2_fc r <? 0)%float.

(** The four "+" cells and the four "-" cells of a summary row. *)
Definition plus_cells (row : SummaryRow) : list (option cell) :=
  [ Significant_Overexpressed row; Accession_Number_plus row;
    log2FC_plus row; neg_log10_adj_p_plus row ].
Definition minus_cells (row : SummaryRow) : list (option cell) :=
  [ Significant_Underexpressed row; Accession_Number_minus row;
    log2FC_minus row; neg_log10_adj_p_minus row ].

(** The cells a listed row shows, and those of a row that is not listed. *)
Definition listed (r : InputRow) : list (option cell) :=
  [ Some (CStr (ann r)); Some (CStr (acc r));
    Some (CNum (log2_fc r)); Some (CNum (pval r)) ].
Definition blank : list (option cell) := [None; None; None; None].

Lemma below_minus_two_not_above_two x :
  (x <? -2)%float = true -> (2 <? x)%float = false.
Proof.
  rewrite !ltb_spec.
  assert (Prim2SF 2 = S754_finite false 4503599627370496 (-51)) as -> by reflexivity.
  assert (Prim2SF (-2) = S754_finite true 4503599627370496 (-51)) as -> by reflexivity.
  unfold SFltb, SFcompare.
  destruct (Prim2SF x) as [s|s| |s m e]; try destruct s;
    try discriminate; try reflexivity.
Qed.

(** Fieldwise concatenation of two states of the loop. *)
Definition append_lists (a b : Lists) : Lists :=
  {| sign_plus := sign_plus a ++ sign_plus b;
     accession_sign_plus := accession_sign_plus a ++ accession_sign_plus b;
     fc_plus := fc_plus a ++ fc_plus b;
     pval_plus := pval_plus a ++ pval_plus b;
     sign_minus := sign_minus a ++ sign_minus b;
     accession_sign_minus := accession_sign_minus a ++ accession_sign_minus b;
     fc_minus := fc_minus a ++ fc_minus b;
     pval_minus := pval_minus a ++ pval_minus b;
     sign_plus_zero := sign_plus_zero a ++ sign_plus_zero b;
     accession_sign_plus_zero := accession_sign_plus_zero a ++ accession_sign_plus_zero b;
     sign_minus_zero := sign_minus_zero a ++ sign_minus_zero b;
     accession_sign_minus_zero :=
       accession_sign_minus_zero a ++ accession_sign_minus_zero b |}.

(** What one iteration appends. *)
Definition row_lists (r : InputRow) : Lists := loop_body empty_lists r.

Lemma append_lists_assoc a b c :
  append_lists (append_lists a b) c = append_lists a (append_lists b c).
Proof. unfold append_lists. simpl. rewrite <- !app_assoc. reflexivity. Qed.

Lemma append_lists_empty st : append_lists st empty_lists = st.
Proof. destruct st. unfold append_lists. simpl. rewrite !app_nil_r. reflexivity. Qed.

Lemma loop_body_append st r : loop_body st r = append_lists st (row_lists r).
Proof.
  destruct st. unfold row_lists, loop_body.
  destruct (2 <? pval r)%float;
    destruct (contains "Only_" (cond r));
    destruct (0 <? log2_fc r)%float;
    destruct (log2_fc r <? 0)%float;
    destruct (2 <? log2_fc r)%float;
    destruct (log2_fc r <? -2)%float;
    unfold append_lists, append_plus, append_minus, append_plus_zero,
           append_minus_zero; simpl; rewrite ?app_nil_r; reflexivity.
Qed.

Lemma fold_loop_body rows : forall st,
  fold_left loop_body rows st
  = append_lists st (fold_left loop_body rows empty_lists).
Proof.
  induction rows as [|r rows IH]; intros st; simpl.
  - symmetry. apply append_lists_empty.
  - rewrite (IH (loop_body st r)), (IH (loop_body empty_lists r)).
    rewrite loop_body_append, append_lists_assoc. reflexivity.
Qed.

Lemma fold_loop_body_cons r rows :
  fold_left loop_body (r :: rows) empty_lists
  = append_lists (row_lists r) (fold_left loop_body rows empty_lists).
Proof. simpl. rewrite fold_loop_body. reflexivity. Qed.

(** Each of the eight standard lists receives exactly one cell per row. *)
Lemma row_lists_standard r :
  sign_plus (row_lists r)
    = [if overexpressed r then Some (CStr (ann r)) else None] /\
  accession_sign_plus (row_lists r)
    = [if overexpressed r then Some (CStr (acc r)) else None] /\
  fc_plus (row_lists r)
    = [if overexpressed r then Some (CNum (log2_fc r)) else None] /\
  pval_plus (row_lists r)
    = [if overexpressed r then Some (CNum (pval r)) else None] /\
  sign_minus (row_lists r)
    = [if underexpressed r then Some (CStr (ann r)) else None] /\
  accession_sign_minus (row_lists r)
    = [if underexpressed r then Some (CStr (acc r)) else None] /\
  fc_minus (row_lists r)
    = [if underexpressed r then Some (CNum (log2_fc r)) else None] /\
  pval_minus (row_lists r)
    = [if underexpressed r then Some (CNum (pval r)) else None].
Proof.
  pose proof (below_minus_two_not_above_two (log2_fc r)) as Hexcl.
  unfold row_lists, loop_body, overexpressed, underexpressed.
  destruct (2 <? pval r)%float;
    destruct (contains "Only_" (cond r));
    destruct (0 <? log2_fc r)%float;
    destruct (log2_fc r <? 0)%float;
    destruct (2 <? log2_fc r)%float;
    destruct (log2_fc r <? -2)%float;
    try (specialize (Hexcl eq_refl); discriminate Hexcl);
    repeat split; reflexivity.
Qed.

(** The zero-condition lists receive a cell only from the rows that pass
    their test. *)
Lemma row_lists_zero r :
  sign_plus_zero (row_lists r)
    = (if zero_overexpressed r then [Some (CStr (ann r))] else []) /\
  accession_sign_plus_zero (row_lists r)
    = (if zero_overexpressed r then [Some (CStr (acc r))] else []) /\
  sign_minus_zero (row_lists r)
    = (if zero_underexpressed r then [Some (CStr (ann r))] else []) /\
  accession_sign_minus_zero (row_lists r)
    = (if zero_underexpressed r then [Some (CStr (acc r))] else []).
Proof.
  unfold row_lists, loop_body, zero_overexpressed, zero_underexpressed.
  destruct (2 <? pval r)%float;
    destruct (contains "Only_" (cond r));
    destruct (0 <? log2_fc r)%float;
    destruct (log2_fc r <? 0)%float;
    destruct (2 <? log2_fc r)%float;
    destruct (log2_fc r <? -2)%float;
    repeat split; reflexivity.
Qed.

Section Columns.
Variable proj : Lists -> list (option cell).
Hypothesis proj_append : forall a b, proj (append_lists a b) = (proj a ++ proj b)%list.
Hypothesis proj_empty : proj empty_lists = [].

Lemma fold_standard_column (f : InputRow -> option cell) :
  (forall r, proj (row_lists r) = [f r]) ->
  forall rows, proj (fold_left loop_body rows empty_lists) = List.map f rows.
Proof using proj_append proj_empty.
  intros Hrow. induction rows as [|r rows IH]; [exact proj_empty|].
  rewrite fold_loop_body_cons, proj_append, Hrow, IH. reflexivity.
Qed.

Lemma fold_zero_column (test : InputRow -> bool) (f : InputRow -> option cell) :
  (forall r, proj (row_lists r) = if test r then [f r] else []) ->
  forall rows,
    proj (fold_left loop_body rows empty_lists)
    = List.map f (List.filter test rows).
Proof using proj_append proj_empty.
  intros Hrow. induction rows as [|r rows IH]; [exact proj_empty|].
  rewrite fold_loop_body_cons, proj_append, Hrow, IH. simpl.
  destruct (test r); reflexivity.
Qed.
End Columns.

Lemma nth_map_nth_error {A B} (f : A -> B) (l : list A) i x d :
  nth_error l i = Some x -> nth i (List.map f l) d = f x.
Proof.
  revert i. induction l as [|y l IH]; intros [|i]; simpl; try discriminate.
  - intros [= ->]. reflexivity.
  - apply IH.
Qed.

Lemma at_label_pad n (l : list (option cell)) i :
  at_label i (pad n l) = at_label i l.
Proof.
  unfold at_label, pad. destruct (Nat.lt_ge_cases i (length l)) as [Hlt|Hge].
  - apply app_nth1, Hlt.
  - rewrite (nth_overflow l None Hge), app_nth2 by exact Hge.
    apply nth_repeat.
Qed.

(** The row of [final_df] at label [i], before [dropna]. *)
Definition zero_rows (st : Lists) : nat :=
  Nat.max (length (sign_plus_zero st)) (length (sign_minus_zero st)).

Definition summary_row (st : Lists) (i : nat) : SummaryRow :=
  {| Significant_Overexpressed := at_label i (sign_plus st);
     Accession_Number_plus := at_label i (accession_sign_plus st);
     log2FC_plus := at_label i (fc_plus st);
     neg_log10_adj_p_plus := at_label i (pval_plus st);
     Significant_Underexpressed := at_label i (sign_minus st);
     Accession_Number_minus := at_label i (accession_sign_minus st);
     log2FC_minus := at_label i (fc_minus st);
     neg_log10_adj_p_minus := at_label i (pval_minus st);
     Zero_Condition_Overexpressed := at_label i (pad (zero_rows st) (sign_plus_zero st));
     Accession_Zero_plus := at_label i (pad (zero_rows st) (accession_sign_plus_zero st));
     Zero_Condition_Underexpressed := at_label i (pad (zero_rows st) (sign_minus_zero st));
     Accession_Zero_minus :=
       at_label i (pad (zero_rows st) (accession_sign_minus_zero st)) |}.

Lemma in_significant_list rows i row :
  let st := fold_left loop_body rows empty_lists in
  In (i, row) (significant_list rows) <->
  (i < Nat.max (length (sign_plus st)) (zero_rows st) /\
   row = summary_row st i /\
   forallb isna (cells row) = false).
Proof.
  intros st. unfold significant_list. fold st. fold (zero_rows st).
  rewrite filter_In, in_map_iff. simpl snd. rewrite negb_true_iff. split.
  - intros [(j & [= <- <-] & Hj) Hna]. apply in_seq in Hj.
    split; [lia|]. split; [reflexivity | exact Hna].
  - intros (Hlt & -> & Hna). split; [|exact Hna].
    exists i. split; [reflexivity|]. apply in_seq. lia.
Qed.

Lemma some_value_kept row c :
  In c (cells row) -> isna c = false -> forallb isna (cells row) = false.
Proof.
  intros Hin Hc. destruct (forallb isna (cells row)) eqn:E; [|reflexivity].
  rewrite forallb_forall in E. rewrite (E c Hin) in Hc. discriminate.
Qed.

Lemma summary_row_standard rows i r :
  nth_error rows i = Some r ->
  let row := summary_row (fold_left loop_body rows empty_lists) i in
  plus_cells row = (if overexpressed r then listed r else blank) /\
  minus_cells row = (if underexpressed r then listed r else blank).
Proof.
  intros Hnth row. unfold row, plus_cells, minus_cells, summary_row, at_label.
  simpl.
  rewrite (fold_standard_column sign_plus
             ltac:(reflexivity) ltac:(reflexivity) _
             (fun r => proj1 (row_lists_standard r))).
  rewrite (fold_standard_column accession_sign_plus
             ltac:(reflexivity) ltac:(reflexivity) _
             (fun r => proj1 (proj2 (row_lists_standard r)))).
  rewrite (fold_standard_column fc_plus
             ltac:(reflexivity) ltac:(reflexivity) _
             (fun r => proj1 (proj2 (proj2 (row_lists_standard r))))).
  rewrite (fold_standard_column pval_plus
             ltac:(reflexivity) ltac:(reflexivity) _
             (fun r => proj1 (proj2 (proj2 (proj2 (row_lists_standard r)))))).
  rewrite (fold_standard_column sign_minus
             ltac:(reflexivity) ltac:(reflexivity) _
             (fun r => proj1 (proj2 (proj2 (proj2 (proj2 (row_lists_standard r))))))).
  rewrite (fold_standard_column accession_sign_minus
             ltac:(reflexivity) ltac:(reflexivity) _
             (fun r => proj1 (proj2 (proj2 (proj2 (proj2 (proj2
                                (row_lists_standard r)))))))).
  rewrite (fold_standard_column fc_minus
             ltac:(reflexivity) ltac:(reflexivity) _
             (fun r => proj1 (proj2 (proj2 (proj2 (proj2 (proj2 (proj2
                                (row_lists_standard r))))))))).
  rewrite (fold_standard_column pval_minus
             ltac:(reflexivity) ltac:(reflexivity) _
             (fun r => proj2 (proj2 (proj2 (proj2 (proj2 (proj2 (proj2
                                (row_lists_standard r))))))))).
  rewrite !(nth_map_nth_error _ _ _ _ _ Hnth).
  destruct (overexpressed r), (underexpressed r); split; reflexivity.
Qed.

Lemma zero_columns rows :
  let st := fold_left loop_body rows empty_lists in
  sign_plus_zero st
    = List.map (fun r => Some (CStr (ann r))) (List.filter zero_overexpressed rows) /\
  accession_sign_plus_zero st
    = List.map (fun r => Some (CStr (acc r))) (List.filter zero_overexpressed rows) /\
  sign_minus_zero st
    = List.map (fun r => Some (CStr (ann r))) (List.filter zero_underexpressed rows) /\
  accession_sign_minus_zero st
    = List.map (fun r => Some (CStr (acc r))) (List.filter zero_underexpressed rows).
Proof.
  cbv zeta. repeat split;
    (apply fold_zero_column;
     [ reflexivity | reflexivity
     | intros r; pose proof (row_lists_zero r); tauto ]).
Qed.

Lemma standard_length rows :
  length (sign_plus (fold_left loop_body rows empty_lists)) = length rows.
Proof.
  rewrite (fold_standard_column sign_plus
             ltac:(reflexivity) ltac:(reflexivity) _
             (fun r => proj1 (row_lists_standard r))).
  apply length_map.
Qed.

(** C5 (amended): the summary row of an input row shows the row's
    annotation, accession, fold change and p-value in its four "+" columns
    exactly when [-log10 p > 2] and [log2FC > 2], in its four "-" columns
    exactly when [-log10 p > 2] and [log2FC < -2], and such a row always has
    a summary row; a row that meets neither condition puts nothing in those
    eight columns.  Beside them, the rows with [-log10 p > 2] whose condition
    contains ["Only_"] and whose fold change is positive (negative) are
    listed, in order and from the top, in the zero-condition over- (under-)
    expressed columns. *)
Theorem summary_lists_significant_rows rows i r :
  nth_error rows i = Some r ->
  (forall row,
     In (i, row) (significant_list rows) ->
     plus_cells row = (if overexpressed r then listed r else blank) /\
     minus_cells row = (if underexpressed r then listed r else blank))
  /\ (overexpressed r = true \/ underexpressed r = true ->
      exists row, In (i, row) (significant_list rows))
  /\ (forall j z,
        nth_error (List.filter zero_overexpressed rows) j = Some z ->
        exists row,
          In (j, row) (significant_list rows) /\
          Zero_Condition_Overexpressed row = Some (CStr (ann z)) /\
          Accession_Zero_plus row = Some (CStr (acc z)))
  /\ (forall j z,
        nth_error (List.filter zero_underexpressed rows) j = Some z ->
        exists row,
          In (j, row) (significant_list rows) /\
          Zero_Condition_Underexpressed row = Some (CStr (ann z)) /\
          Accession_Zero_minus row = Some (CStr (acc z))).
Proof.
  intros Hnth.
  pose proof (summary_row_standard rows i r Hnth) as [Hplus Hminus].
  pose proof (zero_columns rows) as (Hzp & Hzpa & Hzm & Hzma).
  pose proof (standard_length rows) as Hlen.
  cbv zeta in *.
  set (st := fold_left loop_body rows empty_lists) in *.
  assert (Hi : i < length rows) by (apply nth_error_Some; congruence).
  split; [|split; [|split]].
  - intros row Hin. apply in_significant_list in Hin as (_ & -> & _).
    split; assumption.
  - intros Hsig. exists (summary_row st i). apply in_significant_list. fold st.
    split; [rewrite Hlen; lia|]. split; [reflexivity|].
    destruct Hsig as [Ho|Hu].
    + rewrite Ho in Hplus. injection Hplus as H1 _ _ _.
      apply (some_value_kept _ (Some (CStr (ann r)))); [|reflexivity].
      left. exact H1.
    + rewrite Hu in Hminus. injection Hminus as H1 _ _ _.
      apply (some_value_kept _ (Some (CStr (ann r)))); [|reflexivity].
      do 4 right. left. exact H1.
  - intros j z Hz.
    assert (Hj : j < length (sign_plus_zero st)).
    { rewrite Hzp, length_map. apply nth_error_Some. congruence. }
    assert (H1 : Zero_Condition_Overexpressed (summary_row st j) = Some (CStr (ann z))).
    { simpl. rewrite at_label_pad, Hzp. unfold at_label.
      exact (nth_map_nth_error (fun r => Some (CStr (ann r))) _ _ _ _ Hz). }
    assert (H2 : Accession_Zero_plus (summary_row st j) = Some (CStr (acc z))).
    { simpl. rewrite at_label_pad, Hzpa. unfold at_label.
      exact (nth_map_nth_error (fun r => Some (CStr (acc r))) _ _ _ _ Hz). }
    exists (summary_row st j). split; [|split; assumption].
    apply in_significant_list. fold st.
    split; [unfold zero_rows; lia|]. split; [reflexivity|].
    apply (some_value_kept _ (Some (CStr (ann z)))); [|reflexivity].
    do 8 right. left. exact H1.
  - intros j z Hz.
    assert (Hj : j < length (sign_minus_zero st)).
    { rewrite Hzm, length_map. apply nth_error_Some. congruence. }
    assert (H1 : Zero_Condition_Underexpressed (summary_row st j) = Some (CStr (ann z))).
    { simpl. rewrite at_label_pad, Hzm. unfold at_label.
      exact (nth_map_nth_error (fun r => Some (CStr (ann r))) _ _ _ _ Hz). }
    assert (H2 : Accession_Zero_minus (summary_row st j) = Some (CStr (acc z))).
    { simpl. rewrite at_label_pad, Hzma. unfold at_label.
      exact (nth_map_nth_error (fun r => Some (CStr (acc r))) _ _ _ _ Hz). }
    exists (summary_row st j). split; [|split; assumption].
    apply in_significant_list. fold st.
    split; [unfold zero_rows; lia|]. split; [reflexivity|].
    apply (some_value_kept _ (Some (CStr (ann z)))); [|reflexivity].
    do 10 right. left. exact H1.
Qed.

(** Four rows of a statistics table: over- and underexpressed ones, and two
    below the fold-change threshold, one of them present in one condition
    only. *)
Definition input_row (fc p : float) (accession condition : string) : InputRow :=
  {| log2_fc := fc; pval := p; ann := "protein " ++ accession; acc := accession;
     cond := condition |}.
Definition only_row : InputRow := input_row 1 3 "SPO0002" "Only_M1".
Definition sample_rows : list InputRow :=
  [ input_row 3 3 "SPO0001" "Both"; only_row;
    input_row (-3) 3 "SPO0003" "Both"; input_row 1.5 3 "SPO0004" "Both" ].

(** C5, as stated, fails for a row below the fold-change threshold that is
    present in one condition only: [only_row] meets neither condition, yet
    the summary of the table that holds just this row is not empty: it lists
    the row in the zero-condition columns. *)
Lemma unlisted_row_enters_summary :
  overexpressed only_row = false /\
  underexpressed only_row = false /\
  exists row,
    significant_list [only_row] = [(0, row)] /\
    Zero_Condition_Overexpressed row = Some (CStr (ann only_row)) /\
    Accession_Zero_plus row = Some (CStr (acc only_row)).
Proof.
  split; [reflexivity|]. split; [reflexivity|].
  eexists. split; [vm_compute; reflexivity|]. split; reflexivity.
Qed.

Lemma summary_lists_significant_rows_witness :
  (forall row,
     In (2, row) (significant_list sample_rows) ->
     plus_cells row = blank /\
     minus_cells row = listed (input_row (-3) 3 "SPO0003" "Both"))
  /\ exists row, In (2, row) (significant_list sample_rows).
Proof.
  destruct (summary_lists_significant_rows sample_rows 2
              (input_row (-3) 3 "SPO0003" "Both") eq_refl) as (Hcells & Hrow & _).
  split.
  - exact Hcells.
  - apply Hrow. right. reflexivity.
Defined.

End Extractor.

(* ===================================================================== *)
(** * Further properties *)
(* ===================================================================== *)

(** ** The reformatter: outcomes, shape and order *)

Section ReformatterShape.
Import Py Lines FormatRaw SortFacts.

(** X1: the reformatter raises only on an empty file ([lines[0]]); on any
    other file it writes when the stripped header has 8 fields and skips
    otherwise. *)
Theorem reformatter_outcome (lines : list string) :
  (forall e, format_file lines = Raised e <-> (lines = [] /\ e = IndexError))
  /\ (forall first rest,
        lines = first :: rest ->
        if (length (split TAB (strip first)) =? 8)%nat
        then exists data, format_file lines = Written (fixed_header :: data)
        else format_file lines = Skipped).
Proof.
  split.
  - intros e. destruct lines as [|first rest].
    + simpl. split; [intros [= <-]; auto | intros [_ ->]; reflexivity].
    + split; [|intros [H _]; discriminate H].
      destruct (Nat.eq_dec (length (split TAB (strip first))) 8) as [H8|H8].
      * rewrite (format_file_eight _ _ H8). discriminate.
      * rewrite (format_file_not_eight _ _ H8). discriminate.
  - intros first rest ->.
    destruct (Nat.eqb_spec (length (split TAB (strip first))) 8) as [H8|H8].
    + eexists. apply format_file_eight, H8.
    + apply format_file_not_eight, H8.
Qed.

Lemma written_inv lines out :
  format_file lines = Written out ->
  exists first rest,
    lines = first :: rest /\
    out = fixed_header :: sorted sort_key (List.map format_row rest).
Proof.
  destruct lines as [|first rest]; [discriminate|].
  destruct (Nat.eq_dec (length (split TAB (strip first))) 8) as [H8|H8].
  - rewrite (format_file_eight _ _ H8). intros [= <-]. eauto.
  - rewrite (format_file_not_eight _ _ H8). discriminate.
Qed.

(** X2: every line of a written file has exactly five tab-separated fields and
    there is one output line per input line, whatever the input rows look
    like (short, long, blank, with blanks or tabs at their ends). *)
Theorem reformatter_shape (lines out : list string) :
  format_file lines = Written out ->
  length out = length lines /\
  Forall (fun o => length (fields o) = 5) out.
Proof.
  intros H. apply written_inv in H as (first & rest & -> & ->).
  pose proof (sorted_perm sort_key (List.map format_row rest)) as Hperm.
  split.
  - simpl. rewrite (Permutation_length Hperm), length_map. reflexivity.
  - constructor; [reflexivity|].
    rewrite List.Forall_forall. intros o Ho.
    apply (Permutation_in _ Hperm), in_map_iff in Ho as (l & <- & _).
    rewrite fields_format_row. reflexivity.
Qed.

Lemma reformatter_shape_witness :
  length formatted_lines = length raw_lines /\
  Forall (fun o => length (fields o) = 5) formatted_lines.
Proof.
  apply (reformatter_shape raw_lines formatted_lines). vm_compute. reflexivity.
Defined.

(** X3: a file the reformatter wrote is skipped when the reformatter meets it
    again (its header has five columns, not eight): running the script twice
    over a folder does not reformat its own output. *)
Theorem reformatter_skips_its_output (lines out : list string) :
  format_file lines = Written out -> format_file out = Skipped.
Proof.
  intros H. apply written_inv in H as (first & rest & -> & ->).
  apply format_file_not_eight. vm_compute. discriminate.
Qed.

Lemma reformatter_skips_its_output_witness : format_file formatted_lines = Skipped.
Proof.
  apply (reformatter_skips_its_output raw_lines formatted_lines).
  vm_compute. reflexivity.
Defined.






End ReformatterShape.

(** ** The annotator: the dictionary and the rows written *)

Section AnnotatorRuns.
Import Py Lines Annotate.

Lemma annotate_file_clean_witness :
  annotate_file annotations formatted_lines
  = ((strip fixed_header ++ String LF "")
       :: List.map (annotated annotations) (tl formatted_lines), None).
Proof.
  apply (annotate_file_clean annotations fixed_header (tl formatted_lines)).
  repeat constructor; vm_compute; try reflexivity; lia.
Defined.

Lemma annotate_line_cases d line :
  (2 <= length (split TAB (strip line)) /\ exists o, annotate_line d line = inr o)
  \/ (length (split TAB (strip line)) = 1 /\ annotate_line d line = inl IndexError).
Proof.
  unfold annotate_line.
  destruct (split TAB (strip line)) as [|spo_id [|old rest]] eqn:E.
  - exfalso. pose proof (split_free TAB (strip line)) as H. rewrite E in H.
    destruct (strip line) as [|c s]; simpl in E; [discriminate|].
    destruct (Ascii.eqb c TAB); [discriminate|].
    destruct (split TAB s); discriminate.
  - right. split; reflexivity.
  - left. split; [simpl; lia|]. eexists. reflexivity.
Qed.

(** X6: the annotator can only raise [IndexError], and does so at the first
    data line that has a single field once stripped: the lines before it are
    written, in order, and nothing after it; when no data line is that
    short, one line is written per data line. *)
Theorem annotate_lines_outcome d (lines : list string) :
  let written := fst (annotate_lines d lines) in
  (forall i o,
     nth_error written i = Some o ->
     exists line, nth_error lines i = Some line /\ annotate_line d line = inr o)
  /\ match snd (annotate_lines d lines) with
     | None =>
         length written = length lines /\
         Forall (fun line => 2 <= length (split TAB (strip line))) lines
     | Some e =>
         e = IndexError /\
         exists line,
           nth_error lines (length written) = Some line /\
           length (split TAB (strip line)) = 1
     end.
Proof.
  induction lines as [|line lines IH]; simpl.
  - split; [intros [|i] o; discriminate|]. split; [reflexivity | constructor].
  - destruct (annotate_line_cases d line) as [[Hlen [o Ho]]|[Hlen Ho]]; rewrite Ho.
    + destruct (annotate_lines d lines) as [written e]. simpl in *.
      destruct IH as [IHw IHe]. split.
      * intros [|i] o'; simpl.
        -- intros [= <-]. eauto.
        -- apply IHw.
      * destruct e as [e|].
        -- exact IHe.
        -- destruct IHe as [-> Hall]. split; [reflexivity|].
           constructor; assumption.
    + simpl. split; [intros [|i] o; discriminate|].
      split; [reflexivity|]. exists line. auto.
Qed.

(** The key and the annotation a line of the annotation file defines. *)
Definition entry_of (line : string) : option (string * string) :=
  match split1 TAB (strip line) with
  | [spo; annotation] => Some (spo, annotation)
  | _ => None
  end.

(** The annotation of the last line that defines the key [k]. *)
Fixpoint last_entry (k : string) (lines : list string) : option string :=
  match lines with
  | [] => None
  | line :: rest =>
      match last_entry k rest with
      | Some v => Some v
      | None =>
          match entry_of line with
          | Some (k', v) => if String.eqb k' k then Some v else None
          | None => None
          end
      end
  end.

Lemma split1_shape sep s :
  (free_of sep s = true /\ split1 sep s = [s])
  \/ (free_of sep s = false /\ exists a b, split1 sep s = [a; b]).
Proof.
  induction s as [|c s IH]; simpl; [left; auto|].
  destruct (Ascii.eqb c sep); simpl.
  - right. split; [reflexivity|]. eauto.
  - destruct IH as [[-> ->]|[-> (a & b & ->)]]; [left; auto|].
    right. split; [reflexivity|]. eauto.
Qed.

Lemma entry_of_none line :
  entry_of line = None <-> free_of TAB (strip line) = true.
Proof.
  unfold entry_of.
  destruct (split1_shape TAB (strip line)) as [[Hf ->]|[Hf (a & b & ->)]];
    rewrite Hf; split; congruence.
Qed.

Lemma load_line_entry d line :
  load_line d line
  = match entry_of line with
    | Some (k, v) => inr (<[k:=v]> d)
    | None => inl ValueError
    end.
Proof.
  unfold load_line, entry_of.
  destruct (split1 TAB (strip line)) as [|a [|b [|c l]]]; reflexivity.
Qed.

Lemma load_lines_lookup (lines : list string) : forall (d0 d : gmap string string),
  load_lines d0 lines = inr d ->
  forall k, d !! k = match last_entry k lines with
                     | Some v => Some v
                     | None => d0 !! k
                     end.
Proof.
  induction lines as [|line lines IH]; intros d0 d; simpl.
  - intros [= <-] k. reflexivity.
  - rewrite load_line_entry. destruct (entry_of line) as [[k' v]|]; [|discriminate].
    intros Hload k. rewrite (IH _ _ Hload k).
    destruct (last_entry k lines); [reflexivity|].
    destruct (String.eqb_spec k' k) as [->|Hne].
    + apply lookup_insert_eq.
    + apply lookup_insert_ne, Hne.
Qed.

(** X7: loading the dictionary: when every line, stripped, holds a tab, the
    load succeeds and each key maps to the annotation of the last line that
    defines it (and to nothing when no line does); when some line does not
    (a blank line, an accession without annotation), the load raises
    [ValueError]. *)
Theorem SPO_dict_outcome (lines : list string) :
  (Forall (fun line => free_of TAB (strip line) = false) lines ->
   exists d, SPO_dict lines = inr d /\ forall k, d !! k = last_entry k lines)
  /\ (Exists (fun line => free_of TAB (strip line) = true) lines ->
      SPO_dict lines = inl ValueError).
Proof.
  unfold SPO_dict. split.
  - intros Hall.
    assert (Hload : forall d0, exists d, load_lines d0 lines = inr d).
    { induction Hall as [|line lines Hline _ IH]; intros d0; simpl; [eauto|].
      rewrite load_line_entry.
      destruct (entry_of line) as [[k v]|] eqn:E; [apply IH|].
      apply entry_of_none in E. congruence. }
    destruct (Hload ∅) as [d Hd]. exists d. split; [exact Hd|].
    intros k. rewrite (load_lines_lookup _ _ _ Hd k).
    destruct (last_entry k lines); [reflexivity | apply lookup_empty].
  - intros Hex. generalize (∅ : gmap string string).
    induction Hex as [line lines Hline|line lines _ IH]; intros d0; simpl;
      rewrite load_line_entry.
    + apply entry_of_none in Hline. rewrite Hline. reflexivity.
    + destruct (entry_of line) as [[k v]|]; [apply IH | reflexivity].
Qed.

Lemma SPO_dict_outcome_witness :
  (exists d, SPO_dict annotation_lines = inr d /\
             forall k, d !! k = last_entry k annotation_lines)
  /\ SPO_dict (annotation_lines ++ [String LF ""]) = inl ValueError.
Proof.
  split.
  - apply (proj1 (SPO_dict_outcome annotation_lines)).
    repeat constructor.
  - apply (proj2 (SPO_dict_outcome (annotation_lines ++ [String LF ""]))).
    do 2 apply Exists_cons_tl. apply Exists_cons_hd. reflexivity.
Defined.

End AnnotatorRuns.

(** ** The statistics stage: the exported frame *)

Section ExportedFrame.
Import Py Statistics.
Context {L : Libraries}.

Definition column_length (c : column) : nat :=
  match c with
  | Floats xs => length xs
  | Objects xs => length xs
  end.

(** X8: the frame the stage exports has these eighteen columns, in this order
    (the later scripts read columns 0, 1, 9, 14 and 17 by position); each
    column has one entry per index label; and the rows are the merged rows
    that pass [valid_row], in the order of the merged frame. *)
Theorem exported_frame_shape suf_1 suf_2 merged test_name correction_method df :
  process_files suf_1 suf_2 merged test_name correction_method = Exported df ->
  List.map fst (df_columns df)
    = [ "Accession Number"; "Annotation" ++ suf_1;
        "1_" ++ suf_1; "2_" ++ suf_1; "3_" ++ suf_1;
        "Annotation" ++ suf_2; "1_" ++ suf_2; "2_" ++ suf_2; "3_" ++ suf_2;
        "Present_Only_In"; "Row_Average_" ++ suf_1; "STD_" ++ suf_1;
        "Row_Average_" ++ suf_2; "STD_" ++ suf_2; "Log2_Fold_Change";
        "Adj_P_Values"; "-log10(Adj_P_Values)"; "Log10_Adj_P_Values" ]
  /\ Forall (fun c => column_length (snd c) = length (df_index df)) (df_columns df)
  /\ getitem "Accession Number" df
     = inr (Objects (List.map (fun r => CStr (Accession_Number r))
                              (List.filter valid_row merged))).
Proof.
  rewrite process_files_cases.
  destruct (_ && _); [discriminate|].
  destruct (negb _); [discriminate|].
  destruct (String.eqb correction_method "None"); [discriminate|].
  cbv zeta. destruct (Nat.eqb_spec
                        (length (fst (snd (multiple_testing_correction
                           (calculate_pvalues (filled merged) (get_test_function test_name))
                           correction_method))))
                        (length (retained merged))) as [Hlen|_]; [|discriminate].
  intros [= <-]. split; [reflexivity|]. split.
  - unfold exported_frame, filled. simpl.
    repeat constructor; simpl; rewrite ?length_map; try reflexivity; exact Hlen.
  - unfold getitem, exported_frame, filled. simpl.
    rewrite <- retained_rows, !List.map_map. reflexivity.
Qed.

(** X9: on a frame of two distinct suffixes with a row that passes
    [valid_row], a correction method that is neither ['None'] nor valid does
    not stop the stage: it exports, with the raw p-values as
    [Adj_P_Values]. *)
Theorem invalid_method_exports_raw suf_1 suf_2 merged test_name method :
  suf_1 <> suf_2 -> existsb valid_row merged = true ->
  method <> "None" -> ~ In method valid_methods ->
  let raw := calculate_pvalues (filled merged) (get_test_function test_name) in
  process_files suf_1 suf_2 merged test_name method
    = Exported (exported_frame suf_1 suf_2 merged raw)
  /\ getitem "Adj_P_Values" (exported_frame suf_1 suf_2 merged raw) = inr (Floats raw).
Proof.
  intros Hne Hrow Hnone Hinvalid raw. split; [|reflexivity].
  rewrite process_files_cases. fold raw.
  destruct (process_files_guards _ _ _ Hne Hrow) as [-> ->].
  apply String.eqb_neq in Hnone. rewrite Hnone. cbv zeta.
  unfold multiple_testing_correction.
  rewrite Hnone, (invalid_method_rejected _ Hinvalid). simpl fst. simpl snd.
  unfold raw, calculate_pvalues, filled. rewrite !length_map, Nat.eqb_refl.
  reflexivity.
Qed.

(** X10: on a frame of two distinct suffixes with a row that passes
    [valid_row], with one of the five valid methods, and [multipletests]
    returning one corrected value per p-value, the stage exports and
    [Adj_P_Values] is the array [multipletests] returned for the raw
    p-values of the retained rows. *)
Theorem valid_method_exports_corrected suf_1 suf_2 merged test_name method :
  suf_1 <> suf_2 -> existsb valid_row merged = true ->
  In method valid_methods ->
  let raw := calculate_pvalues (filled merged) (get_test_function test_name) in
  length (multipletests raw method) = length raw ->
  process_files suf_1 suf_2 merged test_name method
    = Exported (exported_frame suf_1 suf_2 merged (multipletests raw method))
  /\ getitem "Adj_P_Values" (exported_frame suf_1 suf_2 merged (multipletests raw method))
     = inr (Floats (multipletests raw method)).
Proof.
  intros Hne Hrow Hin raw Hlen.
  exact (process_files_with_correction suf_1 suf_2 merged test_name method
           Hne Hrow Hin Hlen).
Qed.

(** X11: whatever the method, the two arrays [multiple_testing_correction]
    returns have one length and the second is [-log10] of the first. *)
Theorem correction_returns_matching_arrays (p_values : list float) (method : string) :
  let '(adjusted, neglog) := snd (multiple_testing_correction p_values method) in
  neglog = List.map neg_log10 adjusted /\ length neglog = length adjusted.
Proof.
  pose proof (correction_neglog p_values method) as H.
  destruct (snd (multiple_testing_correction p_values method)) as [adjusted neglog].
  simpl in H. subst neglog. split; [reflexivity | apply length_map].
Qed.

(** X12: [calculate_log2_fold_change] writes its replacement back into the
    frame: the exported [Row_Average] columns hold the triplicate means with
    every zero replaced by 1e-14, so no exported average is zero. *)
Theorem exported_averages_are_not_zero
    suf_1 suf_2 merged test_name correction_method df :
  suf_1 <> suf_2 ->
  process_files suf_1 suf_2 merged test_name correction_method = Exported df ->
  exists avg_1 avg_2,
    getitem ("Row_Average_" ++ suf_1) df = inr (Floats avg_1) /\
    getitem ("Row_Average_" ++ suf_2) df = inr (Floats avg_2) /\
    avg_1 = List.map (fun r => let m := row_mean (group1 r) in
                               if PrimFloat.eqb m 0 then 1e-14%float else m)
                     (filled merged) /\
    avg_2 = List.map (fun r => let m := row_mean (group2 r) in
                               if PrimFloat.eqb m 0 then 1e-14%float else m)
                     (filled merged) /\
    Forall (fun x => PrimFloat.eqb x 0 = false) (avg_1 ++ avg_2)%list.
Proof.
  intros Hne Hdf. apply exported_inv in Hdf. subst df.
  apply String.eqb_neq in Hne.
  do 2 eexists. split; [|split; [|split; [reflexivity|split; [reflexivity|]]]].
  - unfold getitem, exported_frame. simpl. rewrite String.eqb_refl. reflexivity.
  - unfold getitem, exported_frame. simpl. rewrite Hne, String.eqb_refl. reflexivity.
  - apply Forall_app. split; rewrite List.Forall_forall; intros x Hx;
      apply in_map_iff in Hx as (r & <- & _); apply nonzero_not_zero.
Qed.

Lemma prefix_app (p s : string) : String.prefix p (p ++ s) = true.
Proof.
  induction p as [|c p IH]; simpl; [destruct s; reflexivity|].
  destruct (ascii_dec c c); [exact IH | congruence].
Qed.

Lemma contains_prefix (p s : string) : String.prefix p s = true -> contains p s = true.
Proof. intros H. destruct s; cbn [contains]; rewrite H; reflexivity. Qed.

Lemma contains_prefix_app (p s : string) : contains p (p ++ s) = true.
Proof. apply contains_prefix, prefix_app. Qed.

(** X13: [Present_Only_In] contains ["Only_"], the text the extractor and the
    plot test for, exactly when one of the row's two triplicates is all zero
    and the other is not; a row whose triplicates are both all zero (zeros in
    one file, absent from the other, after [fillna(0)]) is marked ['Both']. *)
Theorem only_marks_one_sided_rows (suf_1 suf_2 : string) (row : MergedRow) :
  contains "Only_" (presence_annotation suf_1 suf_2 row)
  = xorb (is_all_zero (group1 row)) (is_all_zero (group2 row))
  /\ (is_all_zero (group1 row) = is_all_zero (group2 row) ->
      presence_annotation suf_1 suf_2 row = "Both").
Proof.
  unfold presence_annotation.
  destruct (is_all_zero (group1 row)), (is_all_zero (group2 row)); simpl;
    split; try reflexivity; try discriminate;
    apply (contains_prefix_app "Only_").
Qed.

End ExportedFrame.

Section ExportedFrameExamples.
Import Py Statistics.

Lemma exported_frame_shape_witness :
  exists df,
    process_files (L := stand_in) "M1" "M2" sample_merged "t-test" "fdr_bh" = Exported df /\
    Forall (fun c => column_length (snd c) = length (df_index df)) (df_columns df) /\
    getitem "Accession Number" df = inr (Objects [CStr "SPO0002"; CStr "SPO0004"]).
Proof.
  assert (exists df, process_files (L := stand_in) "M1" "M2" sample_merged "t-test" "fdr_bh"
                     = Exported df) as [df Hdf].
  { eexists. vm_compute. reflexivity. }
  destruct (exported_frame_shape (L := stand_in) _ _ _ _ _ _ Hdf) as (_ & Hshape & Hacc).
  exists df. split; [exact Hdf|]. split; [exact Hshape | exact Hacc].
Defined.

Lemma invalid_method_exports_raw_witness :
  let raw := calculate_pvalues (L := stand_in) (filled sample_merged)
                               (get_test_function "t-test") in
  process_files (L := stand_in) "M1" "M2" sample_merged "t-test" "Bonferroni"
    = Exported (exported_frame (L := stand_in) "M1" "M2" sample_merged raw)
  /\ getitem "Adj_P_Values" (exported_frame (L := stand_in) "M1" "M2" sample_merged raw)
     = inr (Floats raw).
Proof.
  apply (invalid_method_exports_raw (L := stand_in) "M1" "M2" sample_merged
           "t-test" "Bonferroni").
  - discriminate.
  - reflexivity.
  - discriminate.
  - simpl. intros [H|[H|[H|[H|[H|[]]]]]]; discriminate H.
Defined.

Lemma valid_method_exports_corrected_witness :
  let raw := calculate_pvalues (L := stand_in) (filled sample_merged)
                               (get_test_function "t-test") in
  process_files (L := stand_in) "M1" "M2" sample_merged "t-test" "fdr_bh"
    = Exported (exported_frame (L := stand_in) "M1" "M2" sample_merged
                  (multipletests (Libraries := stand_in) raw "fdr_bh"))
  /\ getitem "Adj_P_Values"
       (exported_frame (L := stand_in) "M1" "M2" sample_merged
          (multipletests (Libraries := stand_in) raw "fdr_bh"))
     = inr (Floats (multipletests (Libraries := stand_in) raw "fdr_bh")).
Proof.
  apply (valid_method_exports_corrected (L := stand_in) "M1" "M2" sample_merged
           "t-test" "fdr_bh").
  - discriminate.
  - reflexivity.
  - simpl. tauto.
  - reflexivity.
Defined.

Lemma exported_averages_are_not_zero_witness :
  exists df avg_1 avg_2,
    process_files (L := stand_in) "M1" "M2" sample_merged "t-test" "fdr_bh" = Exported df /\
    getitem "Row_Average_M1" df = inr (Floats avg_1) /\
    getitem "Row_Average_M2" df = inr (Floats avg_2) /\
    Forall (fun x => PrimFloat.eqb x 0 = false) (avg_1 ++ avg_2)%list.
Proof.
  assert (exists df, process_files (L := stand_in) "M1" "M2" sample_merged "t-test" "fdr_bh"
                     = Exported df) as [df Hdf].
  { eexists. vm_compute. reflexivity. }
  destruct (exported_averages_are_not_zero (L := stand_in) "M1" "M2" sample_merged
              "t-test" "fdr_bh" df ltac:(discriminate) Hdf)
    as (avg_1 & avg_2 & H1 & H2 & _ & _ & Hall).
  exists df, avg_1, avg_2. auto.
Defined.

End ExportedFrameExamples.

(** ** The statistics stage: the command line *)

Section CommandLine.
Import Py Statistics StatisticsMain.
Context {L : Libraries}.

Lemma lower_ascii_idempotent c : lower_ascii (lower_ascii c) = lower_ascii c.
Proof.
  destruct c as [b0 b1 b2 b3 b4 b5 b6 b7].
  destruct b0, b1, b2, b3, b4, b5, b6, b7; reflexivity.
Qed.

(** The capitals beyond ASCII are lowered too (U+00C9 to U+00E9), the sign
    U+00D7 is not. *)
Example lower_latin1 :
  lower (String "201" (String "215" "T-Test")) = String "233" (String "215" "t-test").
Proof. vm_compute. reflexivity. Qed.

Lemma lower_idempotent s : lower (lower s) = lower s.
Proof.
  induction s as [|c s IH]; simpl; [reflexivity|].
  rewrite lower_ascii_idempotent, IH. reflexivity.
Qed.

Lemma get_test_function_lower test_name :
  get_test_function (lower test_name) = get_test_function test_name.
Proof. unfold get_test_function. rewrite lower_idempotent. reflexivity. Qed.

Lemma valid_method_is_lower method : In method valid_methods -> lower method = method.
Proof.
  simpl. intros H.
  repeat (destruct H as [<-|H]; [reflexivity|]). contradiction.
Qed.

Lemma process_files_none suf_1 suf_2 merged test_name :
  exists e,
    process_files suf_1 suf_2 merged test_name "None" = Raised e /\
    (suf_1 <> suf_2 -> existsb valid_row merged = true -> e = KeyError "P_Values") /\
    (merged = [] -> e = ValueError).
Proof.
  rewrite process_files_cases.
  destruct (String.eqb_spec suf_1 suf_2) as [Heq|Hne];
    destruct merged as [|row merged]; simpl andb; cbv iota.
  - exists ValueError. split; [reflexivity|]. split; [discriminate | reflexivity].
  - eexists. split; [reflexivity|]. split; [congruence | discriminate].
  - exists ValueError. split; [reflexivity|]. split; [discriminate | reflexivity].
  - destruct (existsb valid_row (row :: merged)); simpl negb; cbv iota;
      eexists; (split; [reflexivity|]); split; try discriminate; auto.
Qed.

(** X14: without a fourth argument that differs from ['None'] the script never
    exports: with the two files alone, with one option, or with ['None'] as
    the correction, the first call of [process_files] raises and nothing is
    exported.  On two distinct suffixes and a frame with a row that passes
    [valid_row] the exception is [KeyError('P_Values')]; on a merged frame
    without rows it is the [ValueError] of the assignment of
    [Present_Only_In].  With too few or too many arguments the script prints
    the usage line. *)
Theorem main_needs_a_correction_method suf_1 suf_2 merged (argv : list string) :
  ((length argv < 3 \/ 5 < length argv) -> main suf_1 suf_2 merged argv = Usage)
  /\ ((length argv = 3 \/ length argv = 4 \/
       (length argv = 5 /\ nth 4 argv "" = "None")) ->
      exists e,
        main suf_1 suf_2 merged argv = Aborted [] (Stage e) /\
        (suf_1 <> suf_2 -> existsb valid_row merged = true -> e = KeyError "P_Values") /\
        (merged = [] -> e = ValueError)).
Proof.
  unfold main. split.
  - intros [H|H].
    + apply Nat.ltb_lt in H. rewrite H. reflexivity.
    + apply Nat.ltb_lt in H. rewrite H, orb_true_r. reflexivity.
  - intros [H|[H|[H Hnone]]]; rewrite H; simpl; rewrite ?Hnone.
    + destruct (process_files_none suf_1 suf_2 merged "t-test") as (e & -> & He).
      exists e. split; [reflexivity | exact He].
    + destruct (process_files_none suf_1 suf_2 merged (nth 3 argv "")) as (e & -> & He).
      exists e. split; [reflexivity | exact He].
    + destruct (process_files_none suf_1 suf_2 merged (nth 3 argv "")) as (e & -> & He).
      exists e. split; [reflexivity | exact He].
Qed.

(** X15: on two files with distinct suffixes whose merged frame has a row
    that passes [valid_row], with a test name and a valid correction method
    on the command line, the script runs the stage twice, the second time on
    the lower-cased arguments, and both runs export the same frame. *)
Theorem main_repeats_the_run suf_1 suf_2 merged (argv : list string) :
  suf_1 <> suf_2 -> existsb valid_row merged = true ->
  length argv = 5 ->
  In (nth 4 argv "") valid_methods ->
  let raw := calculate_pvalues (filled merged) (get_test_function (nth 3 argv "")) in
  length (multipletests raw (nth 4 argv "")) = length raw ->
  let df := exported_frame suf_1 suf_2 merged (multipletests raw (nth 4 argv "")) in
  main suf_1 suf_2 merged argv = Finished [df; df].
Proof.
  intros Hne Hrow Hlen Hvalid raw Hraw df. unfold main. rewrite Hlen. simpl.
  destruct (process_files_with_correction suf_1 suf_2 merged (nth 3 argv "")
              (nth 4 argv "") Hne Hrow Hvalid Hraw) as [Hfirst _].
  rewrite Hfirst.
  rewrite (valid_method_is_lower _ Hvalid).
  destruct (process_files_with_correction suf_1 suf_2 merged (lower (nth 3 argv ""))
              (nth 4 argv "") Hne Hrow Hvalid) as [Hsecond _].
  { cbv zeta. rewrite get_test_function_lower. exact Hraw. }
  rewrite Hsecond. cbv zeta. rewrite get_test_function_lower. reflexivity.
Qed.

End CommandLine.

Section CommandLineExamples.
Import Py Statistics StatisticsMain.

Lemma main_needs_a_correction_method_witness :
  main (L := stand_in) "M1" "M2" sample_merged
       ["statistics.py"; "a.txt"; "b.txt"; "fdr_bh"]
  = Aborted [] (Stage (KeyError "P_Values"))
  /\ main (L := stand_in) "M1" "M2" [] ["statistics.py"; "a.txt"; "b.txt"]
     = Aborted [] (Stage ValueError).
Proof.
  split.
  - destruct (proj2 (main_needs_a_correction_method (L := stand_in) "M1" "M2"
                       sample_merged ["statistics.py"; "a.txt"; "b.txt"; "fdr_bh"]))
      as (e & Hmain & He & _).
    + right. left. reflexivity.
    + rewrite Hmain, He; [reflexivity | discriminate | reflexivity].
  - destruct (proj2 (main_needs_a_correction_method (L := stand_in) "M1" "M2"
                       [] ["statistics.py"; "a.txt"; "b.txt"]))
      as (e & Hmain & _ & He).
    + left. reflexivity.
    + rewrite Hmain, He; reflexivity.
Defined.

Lemma main_repeats_the_run_witness :
  let argv := ["statistics.py"; "a.txt"; "b.txt"; "Welch"; "fdr_bh"] in
  let raw := calculate_pvalues (L := stand_in) (filled sample_merged) S_welch in
  let df := exported_frame (L := stand_in) "M1" "M2" sample_merged
              (multipletests (Libraries := stand_in) raw "fdr_bh") in
  main (L := stand_in) "M1" "M2" sample_merged argv = Finished [df; df].
Proof.
  apply (main_repeats_the_run (L := stand_in) "M1" "M2" sample_merged
           ["statistics.py"; "a.txt"; "b.txt"; "Welch"; "fdr_bh"]).
  - discriminate.
  - reflexivity.
  - reflexivity.
  - simpl. tauto.
  - reflexivity.
Defined.

End CommandLineExamples.

(** ** The significance extractor: the shape of the summary *)

Section SummaryShape.
Import Py SignificantList.

Lemma nan_is_spec_nan x : PrimFloat.is_nan x = true -> Prim2SF x = S754_nan.
Proof.
  unfold PrimFloat.is_nan. rewrite FloatAxioms.eqb_spec. unfold SFeqb, SFcompare.
  destruct (Prim2SF x) as [s|s| |s m e]; try reflexivity.
  - discriminate.
  - destruct s; discriminate.
  - destruct s; rewrite Z.compare_refl;
      change (Pos.compare_cont Eq m m) with (Pos.compare m m);
      rewrite Pos.compare_refl; discriminate.
Qed.

(** No comparison with NaN holds. *)
Lemma nan_compares_false x a :
  PrimFloat.is_nan x = true ->
  (a <? x)%float = false /\ (x <? a)%float = false /\
  (a <=? x)%float = false /\ (x <=? a)%float = false.
Proof.
  intros H. apply nan_is_spec_nan in H.
  rewrite !ltb_spec, !leb_spec, H. unfold SFltb, SFleb, SFcompare.
  destruct (Prim2SF a); auto.
Qed.

Lemma over_excludes_under r : overexpressed r = true -> underexpressed r = false.
Proof.
  unfold overexpressed, underexpressed. intros H.
  apply andb_true_iff in H as [-> H2]. simpl.
  destruct (log2_fc r <? -2)%float eqn:E; [|reflexivity].
  rewrite (below_minus_two_not_above_two _ E) in H2. discriminate.
Qed.

Lemma standard_columns rows :
  let st := fold_left loop_body rows empty_lists in
  sign_plus st
    = List.map (fun r => if overexpressed r then Some (CStr (ann r)) else None) rows /\
  accession_sign_plus st
    = List.map (fun r => if overexpressed r then Some (CStr (acc r)) else None) rows /\
  fc_plus st
    = List.map (fun r => if overexpressed r then Some (CNum (log2_fc r)) else None) rows /\
  pval_plus st
    = List.map (fun r => if overexpressed r then Some (CNum (pval r)) else None) rows /\
  sign_minus st
    = List.map (fun r => if underexpressed r then Some (CStr (ann r)) else None) rows /\
  accession_sign_minus st
    = List.map (fun r => if underexpressed r then Some (CStr (acc r)) else None) rows /\
  fc_minus st
    = List.map (fun r => if underexpressed r then Some (CNum (log2_fc r)) else None) rows /\
  pval_minus st
    = List.map (fun r => if underexpressed r then Some (CNum (pval r)) else None) rows.
Proof.
  cbv zeta. repeat split;
    (apply fold_standard_column;
     [ reflexivity | reflexivity
     | intros r; pose proof (row_lists_standard r); tauto ]).
Qed.

Lemma zero_rows_le rows :
  zero_rows (fold_left loop_body rows empty_lists) <= length rows.
Proof.
  pose proof (zero_columns rows) as (Hzp & _ & Hzm & _). cbv zeta in *.
  unfold zero_rows. rewrite Hzp, Hzm, !length_map.
  pose proof (filter_length_le zero_overexpressed rows).
  pose proof (filter_length_le zero_underexpressed rows). lia.
Qed.

Lemma summary_height rows :
  let st := fold_left loop_body rows empty_lists in
  Nat.max (length (sign_plus st)) (zero_rows st) = length rows.
Proof.
  cbv zeta. rewrite standard_length. pose proof (zero_rows_le rows). lia.
Qed.

Lemma fst_filter_map {B} (g : nat -> B) (f : nat * B -> bool) (l : list nat) :
  List.map fst (List.filter f (List.map (fun i => (i, g i)) l))
  = List.filter (fun i => f (i, g i)) l.
Proof.
  induction l as [|i l IH]; simpl; [reflexivity|].
  destruct (f (i, g i)); simpl; rewrite IH; reflexivity.
Qed.

Lemma seq_sorted n : forall start, StronglySorted lt (seq start n).
Proof.
  induction n as [|n IH]; intros start; simpl; constructor; [apply IH|].
  rewrite List.Forall_forall. intros j Hj. apply in_seq in Hj. lia.
Qed.

Lemma filter_sorted {A} (R : A -> A -> Prop) (h : A -> bool) l :
  StronglySorted R l -> StronglySorted R (List.filter h l).
Proof.
  induction 1 as [|x l Hs IH Hx]; simpl; [constructor|].
  destruct (h x); [|exact IH]. constructor; [exact IH|].
  rewrite List.Forall_forall in *. intros y Hy.
  apply filter_In in Hy as [Hy _]. auto.
Qed.

(** X16: the summary has at most one row per input row: its index labels are
    strictly increasing positions of the input, so it is never longer than
    the input. *)
Theorem summary_labels (rows : list InputRow) :
  StronglySorted lt (List.map fst (significant_list rows)) /\
  Forall (fun i => i < length rows) (List.map fst (significant_list rows)) /\
  length (significant_list rows) <= length rows.
Proof.
  unfold significant_list.
  set (st := fold_left loop_body rows empty_lists).
  fold (zero_rows st).
  pose proof (summary_height rows) as Hn. cbv zeta in Hn. fold st in Hn.
  rewrite Hn. split; [|split].
  - rewrite fst_filter_map. apply filter_sorted, seq_sorted.
  - rewrite fst_filter_map, List.Forall_forall. intros i Hi.
    apply filter_In in Hi as [Hi _]. apply in_seq in Hi. lia.
  - etransitivity; [apply filter_length_le|].
    rewrite length_map, length_seq. reflexivity.
Qed.

(** X17: no summary row lists an input row both as over- and as
    underexpressed. *)
Theorem summary_never_lists_both_sides (rows : list InputRow) i row :
  In (i, row) (significant_list rows) ->
  plus_cells row = blank \/ minus_cells row = blank.
Proof.
  intros Hin.
  assert (Hi : i < length rows).
  { pose proof (summary_height rows) as Hn. cbv zeta in Hn.
    apply in_significant_list in Hin as (Hlt & _). lia. }
  destruct (nth_error rows i) as [r|] eqn:Hnth;
    [|apply nth_error_None in Hnth; lia].
  apply in_significant_list in Hin as (_ & -> & _).
  destruct (summary_row_standard rows i r Hnth) as [Hplus Hminus].
  destruct (overexpressed r) eqn:Ho.
  - right. rewrite Hminus, (over_excludes_under r Ho). reflexivity.
  - left. exact Hplus.
Qed.

Lemma summary_never_lists_both_sides_witness :
  exists row,
    In (0, row) (significant_list sample_rows) /\
    (plus_cells row = blank \/ minus_cells row = blank).
Proof.
  assert (exists row, In (0, row) (significant_list sample_rows)) as [row Hin].
  { eexists. vm_compute. left. reflexivity. }
  exists row. split; [exact Hin|].
  exact (summary_never_lists_both_sides sample_rows 0 row Hin).
Defined.

(** X18: a row whose p-value or fold change is NaN passes none of the tests:
    it is listed in no column of the summary. *)
Theorem nan_rows_are_not_listed (rows : list InputRow) i r :
  nth_error rows i = Some r ->
  PrimFloat.is_nan (pval r) = true \/ PrimFloat.is_nan (log2_fc r) = true ->
  (forall row,
     In (i, row) (significant_list rows) ->
     plus_cells row = blank /\ minus_cells row = blank)
  /\ zero_overexpressed r = false /\ zero_underexpressed r = false.
Proof.
  intros Hnth Hnan.
  assert (H : overexpressed r = false /\ underexpressed r = false /\
              zero_overexpressed r = false /\ zero_underexpressed r = false).
  { unfold overexpressed, underexpressed, zero_overexpressed, zero_underexpressed.
    destruct Hnan as [Hp|Hf].
    - destruct (nan_compares_false _ 2%float Hp) as (-> & _). auto.
    - destruct (nan_compares_false _ 2%float Hf) as (-> & _).
      destruct (nan_compares_false _ (-2)%float Hf) as (_ & -> & _).
      destruct (nan_compares_false _ 0%float Hf) as (-> & -> & _).
      rewrite !andb_false_r. auto. }
  destruct H as (Ho & Hu & Hzo & Hzu). split; [|auto].
  intros row Hin. apply in_significant_list in Hin as (_ & -> & _).
  destruct (summary_row_standard rows i r Hnth) as [Hplus Hminus].
  rewrite Ho in Hplus. rewrite Hu in Hminus. auto.
Qed.

Lemma nan_rows_are_not_listed_witness :
  (forall row,
     In (1, row) (significant_list [only_row; input_row nan 3 "SPO0009" "Only_M2"]) ->
     plus_cells row = blank /\ minus_cells row = blank)
  /\ zero_overexpressed (input_row nan 3 "SPO0009" "Only_M2") = false
  /\ zero_underexpressed (input_row nan 3 "SPO0009" "Only_M2") = false.
Proof.
  apply (nan_rows_are_not_listed
           [only_row; input_row nan 3 "SPO0009" "Only_M2"] 1
           (input_row nan 3 "SPO0009" "Only_M2")).
  - reflexivity.
  - right. reflexivity.
Defined.

Lemma row_is_kept rows i c :
  let st := fold_left loop_body rows empty_lists in
  i < length rows -> In c (cells (summary_row st i)) -> isna c = false ->
  In (i, summary_row st i) (significant_list rows).
Proof.
  intros st Hi Hc Hna. apply in_significant_list. fold st.
  pose proof (summary_height rows) as Hn. cbv zeta in Hn. fold st in Hn.
  rewrite Hn. split; [exact Hi|]. split; [reflexivity|].
  exact (some_value_kept _ _ Hc Hna).
Qed.

Lemma nth_map_none {A} (f : A -> option cell) (l : list A) i :
  (forall x, In x l -> f x = None) -> nth i (List.map f l) None = None.
Proof.
  revert i. induction l as [|x l IH]; intros [|i] H; simpl; auto.
  - apply H. left. reflexivity.
  - apply IH. intros y Hy. apply H. right. exact Hy.
Qed.

Lemma filter_nil {A} (f : A -> bool) (l : list A) :
  (forall x, In x l -> f x = false) -> List.filter f l = [].
Proof.
  induction l as [|x l IH]; intros H; simpl; [reflexivity|].
  rewrite (H x (or_introl eq_refl)). apply IH. intros y Hy. apply H. right. exact Hy.
Qed.

(** X19: the summary is empty exactly when no input row passes any of the four
    tests: the two thresholds and the two zero-condition tests. *)
Theorem summary_is_empty_iff (rows : list InputRow) :
  significant_list rows = [] <->
  Forall (fun r => overexpressed r = false /\ underexpressed r = false /\
                   zero_overexpressed r = false /\ zero_underexpressed r = false)
         rows.
Proof.
  pose proof (standard_columns rows) as (Hsp & Hap & Hfp & Hpp & Hsm & Ham & Hfm & Hpm).
  pose proof (zero_columns rows) as (Hzp & Hzpa & Hzm & Hzma).
  cbv zeta in *.
  set (st := fold_left loop_body rows empty_lists) in *.
  split.
  - intros Hempty. rewrite List.Forall_forall. intros r Hr.
    apply In_nth_error in Hr as [i Hnth].
    assert (Hi : i < length rows) by (apply nth_error_Some; congruence).
    destruct (summary_row_standard rows i r Hnth) as [Hplus Hminus]. fold st in Hplus, Hminus.
    assert (Hnone : forall j c, j < length rows -> In c (cells (summary_row st j)) ->
                                isna c = false -> False).
    { intros j c Hj Hc Hna. pose proof (row_is_kept rows j c Hj Hc Hna) as Hin.
      rewrite Hempty in Hin. exact Hin. }
    repeat split.
    + destruct (overexpressed r); [|reflexivity]. exfalso.
      injection Hplus as H1 _ _ _.
      apply (Hnone i (Some (CStr (ann r))) Hi); [left; exact H1 | reflexivity].
    + destruct (underexpressed r); [|reflexivity]. exfalso.
      injection Hminus as H1 _ _ _.
      apply (Hnone i (Some (CStr (ann r))) Hi); [do 4 right; left; exact H1 | reflexivity].
    + destruct (zero_overexpressed r) eqn:Ez; [|reflexivity]. exfalso.
      assert (Hin : In r (List.filter zero_overexpressed rows)).
      { apply filter_In. split; [eapply nth_error_In; eassumption | exact Ez]. }
      destruct (List.filter zero_overexpressed rows) as [|z zs] eqn:Ef; [exact Hin|].
      apply (Hnone 0 (Some (CStr (ann z)))); [lia| |reflexivity].
      do 8 right. left. simpl. rewrite at_label_pad, Hzp. reflexivity.
    + destruct (zero_underexpressed r) eqn:Ez; [|reflexivity]. exfalso.
      assert (Hin : In r (List.filter zero_underexpressed rows)).
      { apply filter_In. split; [eapply nth_error_In; eassumption | exact Ez]. }
      destruct (List.filter zero_underexpressed rows) as [|z zs] eqn:Ef; [exact Hin|].
      apply (Hnone 0 (Some (CStr (ann z)))); [lia| |reflexivity].
      do 10 right. left. simpl. rewrite at_label_pad, Hzm. reflexivity.
  - intros Hall. rewrite List.Forall_forall in Hall.
    destruct (significant_list rows) as [|[i row] l] eqn:E; [reflexivity|]. exfalso.
    assert (Hin : In (i, row) (significant_list rows)) by (rewrite E; left; reflexivity).
    apply in_significant_list in Hin as (_ & -> & Hna). fold st in Hna.
    assert (Hzo : List.filter zero_overexpressed rows = []).
    { apply filter_nil. intros r Hr. apply (Hall r Hr). }
    assert (Hzu : List.filter zero_underexpressed rows = []).
    { apply filter_nil. intros r Hr. apply (Hall r Hr). }
    rewrite Hzo in Hzp, Hzpa. rewrite Hzu in Hzm, Hzma. simpl in Hzp, Hzpa, Hzm, Hzma.
    unfold cells, summary_row in Hna. simpl in Hna.
    rewrite !at_label_pad, Hzp, Hzpa, Hzm, Hzma in Hna.
    unfold at_label in Hna.
    rewrite Hsp, Hap, Hfp, Hpp, Hsm, Ham, Hfm, Hpm in Hna.
    rewrite !nth_map_none in Hna;
      try (intros r Hr; destruct (Hall r Hr) as (Ho & Hu & _);
           rewrite ?Ho, ?Hu; reflexivity).
    destruct i; discriminate Hna.
Qed.

End SummaryShape.

(** ** The volcano plot: colours and plotted points *)

Section Volcano.
Import Py SignificantList VolcanoPlot.

(** The point drawn for a row of the statistics table. *)
Definition point_of (r : InputRow) : Point :=
  {| log2_fold_change := log2_fc r;
     transformed_pvalue := pval r;
     present_only_in := CStr (cond r) |}.

(** X20: the plot colours a row by the thresholds the extractor lists it by:
    dark green when its condition contains ["Only_"], and otherwise orange
    exactly when the row is overexpressed, blue exactly when it is
    underexpressed, grey exactly when it is neither. *)
Theorem colours_follow_the_thresholds (r : InputRow) :
  (contains "Only_" (cond r) = true -> colour (point_of r) = dark_green)
  /\ (contains "Only_" (cond r) = false ->
      (colour (point_of r) = orange <-> overexpressed r = true) /\
      (colour (point_of r) = blue <-> underexpressed r = true) /\
      (colour (point_of r) = grey <->
       (overexpressed r = false /\ underexpressed r = false))).
Proof.
  pose proof (below_minus_two_not_above_two (log2_fc r)) as Hexcl.
  unfold colour, point_of, overexpressed, underexpressed. simpl.
  split; [intros ->; reflexivity|]. intros ->.
  destruct (2 <? pval r)%float, (2 <? log2_fc r)%float, (log2_fc r <? -2)%float;
    simpl; try (specialize (Hexcl eq_refl); discriminate Hexcl);
    repeat split; try intros Hc; try reflexivity; try discriminate Hc;
    try (destruct Hc as [Hc1 Hc2]; discriminate);
    match goal with Heq : _ = _ |- _ => discriminate Heq end.
Qed.

Lemma colours_follow_the_thresholds_witness :
  colour (point_of only_row) = dark_green
  /\ (colour (point_of (input_row 3 3 "SPO0001" "Both")) = orange <->
      overexpressed (input_row 3 3 "SPO0001" "Both") = true).
Proof.
  split.
  - apply (proj1 (colours_follow_the_thresholds only_row)). reflexivity.
  - apply (proj2 (colours_follow_the_thresholds (input_row 3 3 "SPO0001" "Both"))).
    reflexivity.
Defined.

Lemma bounded_is_not_infinite x :
  (x <=? 15)%float = true -> (-15 <=? x)%float = true ->
  PrimFloat.is_infinity x = false.
Proof.
  unfold PrimFloat.is_infinity.
  rewrite !leb_spec, FloatAxioms.eqb_spec, abs_spec.
  assert (Prim2SF 15 = S754_finite false 8444249301319680 (-49)) as -> by reflexivity.
  assert (Prim2SF (-15) = S754_finite true 8444249301319680 (-49)) as -> by reflexivity.
  assert (Prim2SF infinity = S754_infinity false) as -> by reflexivity.
  unfold SFleb, SFeqb, SFcompare, SFabs.
  destruct (Prim2SF x) as [s|s| |s m e]; try destruct s;
    try discriminate; reflexivity.
Qed.

Lemma SFcompare_antisym x y :
  SFcompare y x = option_map CompOpp (SFcompare x y).
Proof.
  destruct x as [sx|sx| |sx mx ex], y as [sy|sy| |sy my ey]; simpl;
    try destruct sx; try destruct sy; try reflexivity;
    rewrite (Z.compare_antisym ex ey);
    destruct (ex ?= ey)%Z; simpl; try reflexivity;
    change (Pos.compare_cont Eq my mx) with (Pos.compare my mx);
    change (Pos.compare_cont Eq mx my) with (Pos.compare mx my);
    rewrite (Pos.compare_antisym mx my);
    destruct (mx ?= my)%positive; reflexivity.
Qed.

Lemma ltb_excludes_leb a b : (a <? b)%float = true -> (b <=? a)%float = false.
Proof.
  rewrite ltb_spec, leb_spec. unfold SFltb, SFleb.
  rewrite (SFcompare_antisym (Prim2SF a) (Prim2SF b)).
  destruct (SFcompare (Prim2SF a) (Prim2SF b)) as [[]|]; simpl;
    try discriminate; reflexivity.
Qed.

Lemma bounded_is_not_nan x :
  (x <=? 15)%float = true -> PrimFloat.is_nan x = false.
Proof.
  intros Hle. destruct (PrimFloat.is_nan x) eqn:E; [|reflexivity].
  destruct (nan_compares_false _ 15%float E) as (_ & _ & _ & H).
  rewrite H in Hle. discriminate.
Qed.

(** X21: the plot keeps exactly the rows of the table whose fold change lies
    in [-15, 15]: a point is plotted if and only if it is a row of the table
    with [-15 <= log2_fold_change <= 15]; so a row whose fold change is NaN,
    infinite, above 15 or below -15 is left out of the plot. *)
Theorem plotted_points_are_finite (points : list Point) :
  (forall p,
     In p (plotted points) <->
     In p points /\
     (-15 <=? log2_fold_change p)%float = true /\
     (log2_fold_change p <=? 15)%float = true)
  /\ Forall (fun p => PrimFloat.is_nan (log2_fold_change p) = false /\
                      PrimFloat.is_infinity (log2_fold_change p) = false)
            (plotted points)
  /\ (forall p,
        PrimFloat.is_nan (log2_fold_change p) = true \/
        PrimFloat.is_infinity (log2_fold_change p) = true \/
        (15 <? log2_fold_change p)%float = true \/
        (log2_fold_change p <? -15)%float = true ->
        ~ In p (plotted points)).
Proof.
  assert (Hiff : forall p,
             In p (plotted points) <->
             In p points /\
             (-15 <=? log2_fold_change p)%float = true /\
             (log2_fold_change p <=? 15)%float = true).
  { intros p. unfold plotted. rewrite filter_In, andb_true_iff. tauto. }
  split; [exact Hiff|]. split.
  - rewrite List.Forall_forall. intros p Hp.
    apply Hiff in Hp as (_ & Hge & Hle). split.
    + apply bounded_is_not_nan, Hle.
    + apply bounded_is_not_infinite; assumption.
  - intros p Hout Hp. apply Hiff in Hp as (_ & Hge & Hle).
    destruct Hout as [H|[H|[H|H]]].
    + rewrite (bounded_is_not_nan _ Hle) in H. discriminate.
    + rewrite (bounded_is_not_infinite _ Hle Hge) in H. discriminate.
    + rewrite (ltb_excludes_leb _ _ H) in Hle. discriminate.
    + rewrite (ltb_excludes_leb _ _ H) in Hge. discriminate.
Qed.

Lemma plotted_points_are_finite_witness :
  let near := {| log2_fold_change := 3; transformed_pvalue := 3;
                 present_only_in := CStr "Both" |} in
  let far := {| log2_fold_change := 16; transformed_pvalue := 3;
                present_only_in := CStr "Both" |} in
  let lost := {| log2_fold_change := nan; transformed_pvalue := 3;
                 present_only_in := CStr "Both" |} in
  In near (plotted [far; near; lost]) /\
  ~ In far (plotted [far; near; lost]) /\
  ~ In lost (plotted [far; near; lost]).
Proof.
  intros near far lost.
  destruct (plotted_points_are_finite [far; near; lost]) as (Hiff & _ & Hout).
  split; [|split].
  - apply Hiff. split; [simpl; tauto|]. split; reflexivity.
  - apply Hout. right. right. left. reflexivity.
  - apply Hout. left. reflexivity.
Defined.

End Volcano.
